(** * GestaoInformacaoBackend: the request handlers of [server.js]

    A shallow embedding of the Express handlers of [src/server.js] and of the
    relational store they talk to, followed by the properties the
    specification states about them.

    - [Js]: the JavaScript values the handlers compute with (request bodies,
      query strings, result rows, response bodies), over the engine's
      [toLowerCase].
    - [Especies]: the dynamic query builder of [GET /api/especies].
    - [Db]: the tables, the SQL statements the handlers issue and what each
      one does to the tables, over the driver's conversions for the typed
      columns.
    - [Server]: the handlers, written in a monad that threads the world
      (store, connection, trace of store interactions) and exceptions.
    - [Sample]: a driver, an engine, a store and requests to run the
      handlers on. *)

From Stdlib Require Import ZArith List String Ascii Bool Lia.
From Stdlib Require Import DecimalString Permutation Sorted.
Import ListNotations.

#[local] Set Warnings "-register-all".

Open Scope string_scope.
Open Scope Z_scope.

(* ================================================================== *)
(** * JavaScript values *)
(* ================================================================== *)

Module Js.

(** A JSON document after [express.json()], a query-string entry, or a row
    handed back by the driver.  Numbers are the integers: every test the
    handlers make on a number is its truthiness, and a fractional number is
    truthy like any non-zero integer. *)
Inductive value : Type :=
| Undefined
| Null
| Bool (b : bool)
| Num (n : Z)
| Str (s : string)
| Arr (items : list value)
| Obj (props : list (string * value)).

(** [!v] is [negb (truthy v)]. *)
Definition truthy (v : value) : bool :=
  match v with
  | Undefined | Null => false
  | Bool b => b
  | Num n => negb (n =? 0)
  | Str s => negb (s =? "")%string
  | Arr _ | Obj _ => true
  end.

(** [a || b] *)
Definition or (a b : value) : value := if truthy a then a else b.

Fixpoint lookup (k : string) (props : list (string * value)) : value :=
  match props with
  | [] => Undefined
  | (k', v) :: rest => if (k =? k')%string then v else lookup k rest
  end.

(** [o.k], and [const { k } = o]: a property that is not there reads as
    [undefined]. *)
Definition field (k : string) (o : value) : value :=
  match o with
  | Obj props => lookup k props
  | _ => Undefined
  end.

(** [rows[i]] *)
Definition index (i : nat) (rows : list value) : value := nth i rows Undefined.

(** [const { k = d } = o]: the default replaces [undefined] only. *)
Definition default (d v : value) : value :=
  match v with
  | Undefined => d
  | _ => v
  end.

(** [a === b].  Two arrays or objects are equal when they are the same
    object; a value of the request and a value of a row never are. *)
Definition strict_eq (a b : value) : bool :=
  match a, b with
  | Undefined, Undefined => true
  | Null, Null => true
  | Bool x, Bool y => Bool.eqb x y
  | Num x, Num y => x =? y
  | Str x, Str y => (x =? y)%string
  | _, _ => false
  end.

(** [String.prototype.toLowerCase] is the engine's, with its own table of
    the cased letters of every script; the handlers are modelled over any
    such function. *)
Class engine : Type := {
  lower : string -> string
}.

(** [v.toLowerCase()]: only a string has the method; on any other value that
    is not [undefined] or [null] the call raises a [TypeError], as it does on
    those two. *)
Definition toLowerCase {js : engine} (v : value) : option string :=
  match v with
  | Str s => Some (lower s)
  | _ => None
  end.

Definition decimal (n : Z) : string := NilZero.string_of_int (Z.to_int n).

(** [`${v}`]: the text of a value inside a template literal.  An array is its
    items joined by commas, with [null] and [undefined] items left empty. *)
Fixpoint to_string (v : value) : string :=
  match v with
  | Undefined => "undefined"
  | Null => "null"
  | Bool true => "true"
  | Bool false => "false"
  | Num n => decimal n
  | Str s => s
  | Arr items =>
      String.concat ","
        (map (fun x => match x with
                       | Undefined | Null => ""
                       | _ => to_string x
                       end) items)
  | Obj _ => "[object Object]"
  end.

End Js.

Import Js.

(* ================================================================== *)
(** * The query builder of [GET /api/especies] *)
(* ================================================================== *)

Module Especies.

(** The three variables the handler mutates while it builds the statement. *)
Record builder : Type := mk_builder {
  query : string;
  params : list value;
  conditions : list string
}.

Definition select_tombadas : string := "
      SELECT 
        'arvore_tombada' AS tipo,
        id,
        nome_cientifico, 
        nome_popular,
        familia,
        latitude,
        longitude,
        NULL AS altura,
        NULL AS dap,
        rpa
      FROM arvores_tombadas
      WHERE 1=1
    ".

Definition union_censo : string := "
      UNION ALL
      SELECT 
        'censo' AS tipo,
        id,
        nome_cientifico,
        nome_popular,
        NULL AS familia,
        y_wgs84 AS latitude,
        x_wgs84 AS longitude,
        altura,
        dap,
        rpa
      FROM censo_arboreo
      WHERE nome_cientifico IS NOT NULL
    ".

Definition order_by : string := " ORDER BY nome_popular".

(** [$${params.length + 1}] *)
Definition placeholder (n : nat) : string :=
  "$" ++ NilZero.string_of_uint (Nat.to_uint n).

Definition cond_search (n : nat) : string :=
  "(nome_popular ILIKE " ++ placeholder n ++ " OR nome_cientifico ILIKE "
    ++ placeholder n ++ ")".

Definition cond_familia (n : nat) : string := "familia = " ++ placeholder n.

Definition cond_rpa (n : nat) : string := "rpa = " ++ placeholder n.

(** [`%${search}%`] *)
Definition like_pattern (search : value) : value :=
  Str ("%" ++ to_string search ++ "%").

(** [conditions.push(text(params.length + 1)); params.push(v)]: the
    condition is built before the parameter is pushed. *)
Definition push (text : nat -> string) (v : value) (b : builder) : builder :=
  {| query := query b;
     params := (params b ++ [v])%list;
     conditions := (conditions b ++ [text (List.length (params b) + 1)%nat])%list |}.

(** [if (c) { ... }] around a push. *)
Definition when (c : value) (f : builder -> builder) (b : builder) : builder :=
  if truthy c then f b else b.

(** [query += text] *)
Definition append (text : string) (b : builder) : builder :=
  {| query := query b ++ text; params := params b; conditions := conditions b |}.

(** [if (conditions.length > 0) query += ' AND ' + conditions.join(' AND ')] *)
Definition flush (b : builder) : builder :=
  if (0 <? List.length (conditions b))%nat
  then append (" AND " ++ String.concat " AND " (conditions b)) b
  else b.

(** [conditions.length = 0] *)
Definition reset (b : builder) : builder :=
  {| query := query b; params := params b; conditions := [] |}.

(** The statement and the parameters handed to [pool.query]. *)
Definition build (search familia rpa : value) : string * list value :=
  let b := {| query := select_tombadas; params := []; conditions := [] |} in
  let b := when search (push cond_search (like_pattern search)) b in
  let b := when familia (push cond_familia familia) b in
  let b := when rpa (push cond_rpa rpa) b in
  let b := flush b in
  let b := append union_censo b in
  let b := reset b in
  let b := when search (push cond_search (like_pattern search)) b in
  let b := when rpa (push cond_rpa rpa) b in
  let b := flush b in
  let b := append order_by b in
  (query b, params b).

(** ** The builder as the specification words it

    A filter is applied when its input is supplied.  The first branch looks
    at search, familia, rpa in that order, the second at search and rpa; each
    applied filter contributes one condition and one parameter, and the
    condition names the position its parameter takes in the list. *)

Inductive filter : Type := BySearch | ByFamilia | ByRpa.

Definition supplied (search familia rpa : value) (f : filter) : bool :=
  match f with
  | BySearch => truthy search
  | ByFamilia => truthy familia
  | ByRpa => truthy rpa
  end.

Definition condition_of (f : filter) : nat -> string :=
  match f with
  | BySearch => cond_search
  | ByFamilia => cond_familia
  | ByRpa => cond_rpa
  end.

Definition param_of (search familia rpa : value) (f : filter) : value :=
  match f with
  | BySearch => like_pattern search
  | ByFamilia => familia
  | ByRpa => rpa
  end.

(** The filters of a branch with the positions of their parameters, the
    first one at [first]. *)
Definition numbered (first : nat) (fs : list filter) : list (filter * nat) :=
  combine fs (seq first (List.length fs)).

Definition where_tail (conds : list (filter * nat)) : string :=
  match conds with
  | [] => ""
  | _ => " AND " ++
         String.concat " AND " (map (fun c => condition_of (fst c) (snd c)) conds)
  end.

Definition tombadas_filters (search familia rpa : value) : list filter :=
  List.filter (supplied search familia rpa) [BySearch; ByFamilia; ByRpa].

Definition censo_filters (search familia rpa : value) : list filter :=
  List.filter (supplied search familia rpa) [BySearch; ByRpa].

Definition tombadas_conditions (search familia rpa : value) :=
  numbered 1 (tombadas_filters search familia rpa).

Definition censo_conditions (search familia rpa : value) :=
  numbered (1 + List.length (tombadas_filters search familia rpa))
           (censo_filters search familia rpa).

Definition spec_query (search familia rpa : value) : string :=
  select_tombadas ++ where_tail (tombadas_conditions search familia rpa)
    ++ union_censo ++ where_tail (censo_conditions search familia rpa)
    ++ order_by.

Definition spec_params (search familia rpa : value) : list value :=
  map (param_of search familia rpa)
      (tombadas_filters search familia rpa ++ censo_filters search familia rpa).

(** The statement for a given set of supplied inputs; no value enters it. *)
Definition query_for (has_search has_familia has_rpa : bool) : string :=
  fst (build (Bool has_search) (Bool has_familia) (Bool has_rpa)).

End Especies.

(* ================================================================== *)
(** * The listing of [GET /api/plantas] *)
(* ================================================================== *)

Module Plantas.

Definition select_plantas : string := "
      SELECT 
        id,
        nome_cientifico, 
        nome_popular,
        detalhes,
        data_plantio,
        fonte,
        usuario_id,
        latitude,
        longitude,
        created_at
      FROM plantas
      WHERE 1=1
    ".

Definition search_condition : string :=
  " AND (nome_popular ILIKE $1 OR nome_cientifico ILIKE $1)".

Definition order_by : string := " ORDER BY nome_cientifico".

(** The statement and the parameters handed to [pool.query]: the condition
    and its parameter are added together, when [search] is truthy. *)
Definition build (search : value) : string * list value :=
  let query := select_plantas in
  let params := [] in
  let (query, params) :=
    if truthy search
    then (query ++ search_condition, (params ++ [Especies.like_pattern search])%list)
    else (query, params) in
  (query ++ order_by, params).

(** The keys ["0"], ["1"], ... of the items of an array or a string. *)
Definition index_keys (n : nat) : list string :=
  map (fun i => NilZero.string_of_uint (Nat.to_uint i)) (seq 0 n).

Fixpoint chars (s : string) : list value :=
  match s with
  | EmptyString => []
  | String c rest => Str (String c EmptyString) :: chars rest
  end.

(** The properties [{...v}] copies: those of an object, the items of an array
    or of a string under their indices, none of any other value. *)
Definition own_props (v : value) : list (string * value) :=
  match v with
  | Obj props => props
  | Arr items => combine (index_keys (List.length items)) items
  | Str s => combine (index_keys (String.length s)) (chars s)
  | _ => []
  end.

(** [{ ..., k: v }] after other properties: the value of [k] is replaced
    where [k] is, and [k] is added last when it is new. *)
Fixpoint assign (k : string) (v : value) (props : list (string * value))
  : list (string * value) :=
  match props with
  | [] => [(k, v)]
  | (k', v') :: rest =>
      if (k =? k')%string then (k, v) :: rest else (k', v') :: assign k v rest
  end.

(** [({ ...row, tipo: 'planta', count: 1 })] *)
Definition decorate (row : value) : value :=
  Obj (assign "count" (Num 1) (assign "tipo" (Str "planta") (own_props row))).

(** [rows.map(row => ...)] *)
Definition format (rows : list value) : list value := map decorate rows.

End Plantas.


(* ================================================================== *)
(** * The relational store *)
(* ================================================================== *)

Module Db.

(** ** Tables *)

(** Modelled from the spec: the schema (the [CREATE TABLE] statements) is not
    part of the sources.  The tables and columns are the ones the statements
    of [server.js] name, with the types the specification gives them: names,
    details, source, room name and description and message content are text,
    the coordinates are numeric, the planting day is a date, ids and
    references are integers; ids and timestamps are generated by the store.
    A column the handlers compare in a later statement holds the text or the
    integer the store made of the bound parameter; a column of a plant, a
    room or a message that is only returned holds what the driver returns
    for it: [null], or the text, number or date as the driver renders it. *)
Module User.
Record t : Type := mk { id : Z; username : string; password : string }.
Definition to_js (u : t) : value :=
  Obj [("id", Num (id u)); ("username", Str (username u));
       ("password", Str (password u))].
End User.

Module Plant.
Record t : Type := mk {
  id : Z;
  nome_cientifico : value;
  nome_popular : value;
  detalhes : value;
  data_plantio : value;
  fonte : value;
  usuario_id : value;
  latitude : value;
  longitude : value;
  created_at : Z
}.
Definition to_js (p : t) : value :=
  Obj [("id", Num (id p));
       ("nome_cientifico", nome_cientifico p);
       ("nome_popular", nome_popular p);
       ("detalhes", detalhes p);
       ("data_plantio", data_plantio p);
       ("fonte", fonte p);
       ("usuario_id", usuario_id p);
       ("latitude", latitude p);
       ("longitude", longitude p);
       ("created_at", Num (created_at p))].
End Plant.

Module Room.
Record t : Type := mk {
  id : Z;
  name : value;
  description : value;
  creator_id : Z;
  created_at : Z
}.
Definition to_js (r : t) : value :=
  Obj [("id", Num (id r)); ("name", name r); ("description", description r);
       ("creator_id", Num (creator_id r)); ("created_at", Num (created_at r))].
End Room.

Module Message.
Record t : Type := mk {
  id : Z;
  room_id : Z;
  sender_id : Z;
  content : value;
  timestamp : Z
}.
Definition to_js (m : t) : value :=
  Obj [("id", Num (id m)); ("room_id", Num (room_id m));
       ("sender_id", Num (sender_id m)); ("content", content m);
       ("timestamp", Num (timestamp m))].
End Message.

(** A row of [room_members]: [(room_id, user_id)]. *)
Definition member : Type := (Z * Z)%type.

Record tables : Type := mk_tables {
  users : list User.t;
  plantas : list Plant.t;
  rooms : list Room.t;
  room_members : list member;
  messages : list Message.t
}.

Definition empty : tables :=
  {| users := []; plantas := []; rooms := []; room_members := []; messages := [] |}.

(** The tables [a] with the rows of [b] inserted after them. *)
Definition add (a b : tables) : tables :=
  {| users := (users a ++ users b)%list;
     plantas := (plantas a ++ plantas b)%list;
     rooms := (rooms a ++ rooms b)%list;
     room_members := (room_members a ++ room_members b)%list;
     messages := (messages a ++ messages b)%list |}.

Arguments add : simpl never.

(** ** The driver

    What node-postgres and the store make of a bound parameter depends on the
    column it meets; both are outside the sources, so the handlers are
    modelled over any such conversion. *)
Class driver : Type := {
  (** the integer a parameter denotes for an integer column or a [LIMIT];
      [None] when the store rejects it *)
  pg_int : value -> option Z;
  (** the text a parameter is stored as in a text column *)
  pg_text : value -> string;
  (** what a numeric column returns for a parameter; [None] when the store
      rejects it *)
  pg_numeric : value -> option value;
  (** what a date column returns for a parameter; [None] when the store
      rejects it *)
  pg_date : value -> option value;
  (** a string is sent as it is *)
  pg_text_str : forall s, pg_text (Str s) = s;
  (** an integer the store generated, sent back, is that integer *)
  pg_int_num : forall n, pg_int (Num n) = Some n
}.

(** A parameter that is [null] or [undefined] is sent as [NULL], which every
    column returns as [null]; any other goes through the column's type. *)
Definition nullable (typed : value -> option value) (v : value) : option value :=
  match v with
  | Undefined | Null => Some Null
  | _ => typed v
  end.

Section Columns.

Context {pg : driver}.

Definition text_column (v : value) : value :=
  match v with
  | Undefined | Null => Null
  | _ => Str (pg_text v)
  end.

Definition int_column : value -> option value :=
  nullable (fun v => option_map Num (pg_int v)).

Definition numeric_column : value -> option value := nullable pg_numeric.

Definition date_column : value -> option value := nullable pg_date.

End Columns.

(** ** Statements *)

Inductive statement : Type :=
| BEGIN
| COMMIT
| ROLLBACK
| select_user_id
| insert_user
| select_user
| insert_planta
| insert_room
| insert_room_member
| select_messages
| select_room_member
| insert_message.

(** The text each statement has in [server.js]. *)
Definition text (s : statement) : string :=
  match s with
  | BEGIN => "BEGIN"
  | COMMIT => "COMMIT"
  | ROLLBACK => "ROLLBACK"
  | select_user_id => "SELECT id FROM users WHERE username = $1"
  | insert_user =>
      "INSERT INTO users (username, password) VALUES ($1, $2) RETURNING id, username"
  | select_user => "SELECT id, username, password FROM users WHERE username = $1"
  | insert_planta => "INSERT INTO plantas (
        nome_cientifico, 
        nome_popular, 
        detalhes, 
        data_plantio, 
        fonte, 
        usuario_id, 
        latitude, 
        longitude
      ) VALUES ($1, $2, $3, $4, $5, $6, $7, $8) 
      RETURNING *"
  | insert_room =>
      "INSERT INTO rooms (name, description, creator_id) VALUES ($1, $2, $3) RETURNING *"
  | insert_room_member => "INSERT INTO room_members (room_id, user_id) VALUES ($1, $2)"
  | select_messages => "SELECT * FROM messages 
       WHERE room_id = $1 
       ORDER BY timestamp DESC
       LIMIT $2"
  | select_room_member =>
      "SELECT 1 FROM room_members WHERE room_id = $1 AND user_id = $2"
  | insert_message =>
      "INSERT INTO messages (room_id, sender_id, content) VALUES ($1, $2, $3) RETURNING *"
  end.

(** What [query] resolves to. *)
Record result : Type := mk_result { rows : list value; rowCount : nat }.

Definition selected (rs : list value) : result :=
  {| rows := rs; rowCount := List.length rs |}.

Definition inserted (returning : list value) : result :=
  {| rows := returning; rowCount := 1 |}.

(** [$i] *)
Definition param (i : nat) (params : list value) : value :=
  nth (i - 1) params Undefined.

Definition has_username (u : string) (row : User.t) : bool :=
  (User.username row =? u)%string.

Definition in_room (r : Z) (m : Message.t) : bool := Message.room_id m =? r.

Definition is_member (r u : Z) (m : member) : bool :=
  (fst m =? r) && (snd m =? u).

(** Modelled from the spec: a username is unique among the users; the store
    refuses an insert that would repeat one. *)
Definition username_taken (u : string) (t : tables) : bool :=
  existsb (has_username u) (users t).

(** Modelled from the spec: a membership is unique per pair of room and
    user; the store refuses an insert that would repeat one. *)
Definition membership_taken (r u : Z) (t : tables) : bool :=
  existsb (is_member r u) (room_members t).

(** [ORDER BY timestamp DESC]: newest first; rows with the same timestamp
    keep the order the table has them in. *)
Fixpoint insert_desc (m : Message.t) (sorted : list Message.t) : list Message.t :=
  match sorted with
  | [] => [m]
  | x :: rest =>
      if Message.timestamp x <? Message.timestamp m
      then m :: x :: rest
      else x :: insert_desc m rest
  end.

Fixpoint newest_first (ms : list Message.t) : list Message.t :=
  match ms with
  | [] => []
  | m :: rest => insert_desc m (newest_first rest)
  end.

(** The rows a join inserts. *)
Definition membership (r u : Z) : tables :=
  {| users := []; plantas := []; rooms := [];
     room_members := [(r, u)]; messages := [] |}.

(** The rows a room creation inserts: the room and the membership of its
    creator. *)
Definition room_with_creator (room : Room.t) : tables :=
  {| users := []; plantas := []; rooms := [room];
     room_members := [(Room.id room, Room.creator_id room)]; messages := [] |}.

(** The order [newest_first] sorts by. *)
Definition not_older (a b : Message.t) : Prop :=
  Message.timestamp b <= Message.timestamp a.

Section Run.

Context {pg : driver}.

(** Modelled from the spec: the types of the columns.  The row
    [INSERT INTO plantas (...) VALUES ($1, ..., $8)] makes of its parameters,
    in the order the statement lists the columns, when every column takes
    its value. *)
Definition plant_of_params (params : list value) (fresh : Z) : option Plant.t :=
  match date_column (param 4 params), int_column (param 6 params),
        numeric_column (param 7 params), numeric_column (param 8 params) with
  | Some data_plantio, Some usuario_id, Some latitude, Some longitude =>
      Some (Plant.mk fresh
              (text_column (param 1 params)) (text_column (param 2 params))
              (text_column (param 3 params)) data_plantio
              (text_column (param 5 params)) usuario_id
              latitude longitude fresh)
  | _, _, _, _ => None
  end.

(** Modelled from the spec: the types of the columns.  The row
    [INSERT INTO rooms (name, description, creator_id)] makes. *)
Definition room_of_params (params : list value) (fresh : Z) : option Room.t :=
  match pg_int (param 3 params) with
  | Some creator =>
      Some (Room.mk fresh (text_column (param 1 params))
                    (text_column (param 2 params)) creator fresh)
  | None => None
  end.

(** Modelled from the spec: the types of the columns.  The row
    [INSERT INTO messages (room_id, sender_id, content)] makes. *)
Definition message_of_params (params : list value) (fresh : Z)
  : option Message.t :=
  match pg_int (param 1 params), pg_int (param 2 params) with
  | Some r, Some u =>
      Some (Message.mk fresh r u (text_column (param 3 params)) fresh)
  | _, _ => None
  end.

(** [run s params t fresh] is what statement [s] does on the tables [t]:
    [None] when the store raises an error, otherwise the result and the rows
    the statement inserts.  [fresh] is the value the store generates for the
    id and the timestamp of an inserted row.  [BEGIN], [COMMIT] and
    [ROLLBACK] touch no table; the connection interprets them. *)
Definition run (s : statement) (params : list value) (t : tables) (fresh : Z)
  : option (result * tables) :=
  match s with
  | BEGIN | COMMIT | ROLLBACK => Some (selected [], empty)
  | select_user_id =>
      let found := filter (has_username (pg_text (param 1 params))) (users t) in
      Some (selected (map (fun u => Obj [("id", Num (User.id u))]) found), empty)
  | insert_user =>
      let u := pg_text (param 1 params) in
      if username_taken u t then None
      else
        let row := User.mk fresh u (pg_text (param 2 params)) in
        Some (inserted [Obj [("id", Num fresh); ("username", Str u)]],
              {| users := [row]; plantas := []; rooms := [];
                 room_members := []; messages := [] |})
  | select_user =>
      let found := filter (has_username (pg_text (param 1 params))) (users t) in
      Some (selected (map User.to_js found), empty)
  | insert_planta =>
      match plant_of_params params fresh with
      | None => None
      | Some row =>
          Some (inserted [Plant.to_js row],
                {| users := []; plantas := [row]; rooms := [];
                   room_members := []; messages := [] |})
      end
  | insert_room =>
      match room_of_params params fresh with
      | None => None
      | Some row =>
          Some (inserted [Room.to_js row],
                {| users := []; plantas := []; rooms := [row];
                   room_members := []; messages := [] |})
      end
  | insert_room_member =>
      match pg_int (param 1 params), pg_int (param 2 params) with
      | Some r, Some u =>
          if membership_taken r u t then None
          else
            Some (inserted [],
                  {| users := []; plantas := []; rooms := [];
                     room_members := [(r, u)]; messages := [] |})
      | _, _ => None
      end
  | select_messages =>
      match pg_int (param 1 params), pg_int (param 2 params) with
      | Some r, Some n =>
          if n <? 0 then None
          else
            let found := newest_first (filter (in_room r) (messages t)) in
            Some (selected (map Message.to_js (firstn (Z.to_nat n) found)), empty)
      | _, _ => None
      end
  | select_room_member =>
      match pg_int (param 1 params), pg_int (param 2 params) with
      | Some r, Some u =>
          let found := filter (is_member r u) (room_members t) in
          Some (selected (map (fun _ => Obj [("?column?", Num 1)]) found), empty)
      | _, _ => None
      end
  | insert_message =>
      match message_of_params params fresh with
      | None => None
      | Some row =>
          Some (inserted [Message.to_js row],
                {| users := []; plantas := []; rooms := [];
                   room_members := []; messages := [row] |})
      end
  end.

End Run.

End Db.

Import Db.

(* ================================================================== *)
(** * The handlers *)
(* ================================================================== *)

Module Server.

(** ** The world a handler runs in *)

(** What a handler does with the pool and with its connection, in order. *)
Inductive event : Type :=
| Connect                        (* pool.connect() *)
| Client (s : statement)         (* client.query(s, ...) *)
| Pool (s : statement)           (* pool.query(s, ...) *)
| Release.                       (* client.release() *)

(** [committed] are the tables every connection sees.  [txn] is the
    transaction open on the pool's connection, the one [pool.connect()]
    hands out and [pool.query] runs on: the rows it has inserted and not yet
    committed.  [next] is the next value the
    store generates.  [oracle n] tells whether the store fails the [n]-th
    interaction (a lost connection, a constraint of the schema, a value a
    column does not take); [trace] lists the interactions so far. *)
Record world : Type := mk_world {
  committed : tables;
  txn : option tables;
  next : Z;
  oracle : nat -> bool;
  trace : list event
}.

(** The tables as the connection sees them. *)
Definition visible (w : world) : tables :=
  match txn w with
  | Some own => add (committed w) own
  | None => committed w
  end.

(** No store failure, now or later. *)
Definition quiet (w : world) : Prop := forall n, oracle w n = false.

Definition fails (w : world) : bool := oracle w (List.length (trace w)).

Definition log (e : event) (w : world) : world :=
  {| committed := committed w; txn := txn w; next := next w;
     oracle := oracle w; trace := (trace w ++ [e])%list |}.

Definition set_txn (t : option tables) (w : world) : world :=
  {| committed := committed w; txn := t; next := next w;
     oracle := oracle w; trace := trace w |}.

Definition set_committed (t : tables) (w : world) : world :=
  {| committed := t; txn := txn w; next := next w;
     oracle := oracle w; trace := trace w |}.

Definition tick (w : world) : world :=
  {| committed := committed w; txn := txn w; next := next w + 1;
     oracle := oracle w; trace := trace w |}.

(** The rows a statement inserts: inside a transaction they stay with the
    transaction until [COMMIT]; outside one they are committed at once. *)
Definition store (new : tables) (w : world) : world :=
  match txn w with
  | Some own => set_txn (Some (add own new)) w
  | None => set_committed (add (committed w) new) w
  end.

Arguments visible : simpl never.
Arguments store : simpl never.

(** ** Computations that change the world and may throw *)

Inductive exn : Type :=
| TypeError
| StoreError.

Inductive outcome (A : Type) : Type :=
| Ok (a : A)
| Throw (e : exn).

Arguments Ok {A} a.
Arguments Throw {A} e.

Definition M (A : Type) : Type := world -> outcome A * world.

Definition ret {A} (a : A) : M A := fun w => (Ok a, w).

Definition throw {A} (e : exn) : M A := fun w => (Throw e, w).

Definition bind {A B} (c : M A) (k : A -> M B) : M B :=
  fun w =>
    match c w with
    | (Ok a, w') => k a w'
    | (Throw e, w') => (Throw e, w')
    end.

Declare Scope handler_scope.
Delimit Scope handler_scope with handler.
Notation "x <- c ;; k" := (bind c (fun x => k))
  (at level 61, c at next level, right associativity) : handler_scope.
Notation "c ;; k" := (bind c (fun _ => k))
  (at level 61, right associativity) : handler_scope.
Open Scope handler_scope.

(** [try { body } catch (err) { handler }] *)
Definition try_catch {A} (body : M A) (handler : exn -> M A) : M A :=
  fun w =>
    match body w with
    | (Ok a, w') => (Ok a, w')
    | (Throw e, w') => handler e w'
    end.

(** [try { body } catch (err) { handler } finally { final }]: [final] runs on
    every way out, also when [body] returns early and when [handler] throws. *)
Definition try_catch_finally {A} (body : M A) (handler : exn -> M A)
    (final : M unit) : M A :=
  fun w =>
    let (r, w') := try_catch body handler w in
    match final w' with
    | (Ok _, w'') => (r, w'')
    | (Throw e, w'') => (Throw e, w'')
    end.

(** An optional value, thrown as a [TypeError] when it is missing. *)
Definition defined {A} (o : option A) : M A :=
  match o with
  | Some a => ret a
  | None => throw TypeError
  end.

(** The text of [err.message] is the driver's or the engine's. *)
Definition message_of (e : exn) : value :=
  match e with
  | TypeError => Str "TypeError"
  | StoreError => Str "StoreError"
  end.

(** [err.code]: only an error of the store has one. *)
Definition code_of (e : exn) : value :=
  match e with
  | TypeError => Undefined
  | StoreError => Str "SQLSTATE"
  end.

Section Handlers.

Context {pg : driver} {js : engine}.

(** [await pool.connect()] *)
Definition pool_connect : M unit :=
  fun w =>
    if fails w then (Throw StoreError, log Connect w)
    else (Ok tt, log Connect w).

(** [client.release()]: the connection goes back to the pool as it is. *)
Definition client_release : M unit := fun w => (Ok tt, log Release w).

(** [await client.query(s, params)]: a statement on the handler's connection.
    Inside a transaction an insert stays with the transaction until
    [COMMIT]; outside one it is committed at once. *)
Definition client_query (s : statement) (params : list value) : M result :=
  fun w =>
    let w1 := log (Client s) w in
    if fails w then (Throw StoreError, w1)
    else
      match s with
      | BEGIN =>
          (Ok (selected []),
           match txn w1 with
           | None => set_txn (Some empty) w1
           | Some _ => w1
           end)
      | COMMIT => (Ok (selected []), set_txn None (set_committed (visible w1) w1))
      | ROLLBACK => (Ok (selected []), set_txn None w1)
      | _ =>
          match run s params (visible w1) (next w1) with
          | None => (Throw StoreError, w1)
          | Some (r, new) => (Ok r, tick (store new w1))
          end
      end.

(** [await pool.query(s, params)]: the pool runs the statement on its idle
    connection, the one a handler released, and leaves it as it is.  When
    that connection was released inside a transaction the statement runs in
    it, and what it inserts is not committed; otherwise it is committed at
    once. *)
Definition pool_query (s : statement) (params : list value) : M result :=
  fun w =>
    let w1 := log (Pool s) w in
    if fails w then (Throw StoreError, w1)
    else
      match run s params (visible w1) (next w1) with
      | None => (Throw StoreError, w1)
      | Some (r, new) => (Ok r, tick (store new w1))
      end.

Record response : Type := mk_response { status : Z; json : value }.

(** [res.status(c).json(v)]; [res.json(v)] is [respond 200 v]. *)
Definition respond (c : Z) (v : value) : M response :=
  ret {| status := c; json := v |}.

Definition failure (text : string) : value :=
  Obj [("success", Bool false); ("message", Str text)].

Definition error (text : string) : value := Obj [("error", Str text)].

(** [POST /api/auth/register] *)
Definition post_auth_register (body : value) : M response :=
  let username := field "username" body in
  let password := field "password" body in
  if negb (truthy username) || negb (truthy password) then
    respond 400 (failure "Username e senha são obrigatórios")
  else
    pool_connect ;;
    try_catch_finally
      (client_query BEGIN [] ;;
       lowered <- defined (toLowerCase username) ;;
       userCheck <- client_query select_user_id [Str lowered] ;;
       if (0 <? rowCount userCheck)%nat then
         respond 400 (failure "Username já está em uso")
       else
         lowered <- defined (toLowerCase username) ;;
         userResult <- client_query insert_user [Str lowered; password] ;;
         client_query COMMIT [] ;;
         respond 201 (Obj [("success", Bool true);
                           ("user", index 0 (rows userResult))]))
      (fun err =>
         client_query ROLLBACK [] ;;
         respond 500 (failure "Erro ao registrar usuário"))
      client_release.

(** [POST /api/auth/login] *)
Definition post_auth_login (body : value) : M response :=
  let username := field "username" body in
  let password := field "password" body in
  if negb (truthy username) || negb (truthy password) then
    respond 400 (failure "Username e senha são obrigatórios")
  else
    try_catch
      (lowered <- defined (toLowerCase username) ;;
       userQuery <- pool_query select_user [Str lowered] ;;
       if (List.length (rows userQuery) =? 0)%nat then
         respond 404 (failure "Usuário não encontrado")
       else
         let user := index 0 (rows userQuery) in
         if negb (strict_eq password (field "password" user)) then
           respond 401 (failure "Senha incorreta")
         else
           respond 200 (Obj [("success", Bool true);
                             ("message", Str "Login bem-sucedido");
                             ("user", Obj [("id", field "id" user);
                                           ("username", field "username" user)])]))
      (fun err => respond 500 (failure "Erro interno ao processar login")).

(** [POST /api/plants] *)
Definition post_plants (body : value) : M response :=
  let nome_cientifico := field "nome_cientifico" body in
  let nome_popular := field "nome_popular" body in
  let detalhes := field "detalhes" body in
  let data_plantio := field "data_plantio" body in
  let fonte := field "fonte" body in
  let usuario_id := field "usuario_id" body in
  let latitude := field "latitude" body in
  let longitude := field "longitude" body in
  if negb (truthy nome_cientifico) && negb (truthy nome_popular) then
    respond 400
      (failure "Pelo menos o nome científico ou popular deve ser fornecido")
  else if negb (truthy latitude) || negb (truthy longitude) then
    respond 400 (failure "Coordenadas geográficas são obrigatórias")
  else
    try_catch
      (inserted <- pool_query insert_planta
                     [or nome_cientifico Null;
                      or nome_popular Null;
                      or detalhes Null;
                      or data_plantio Null;
                      or fonte Null;
                      or usuario_id Null;
                      latitude;
                      longitude] ;;
       respond 201 (Obj [("success", Bool true);
                         ("plant", index 0 (rows inserted));
                         ("message", Str "Planta cadastrada com sucesso")]))
      (fun err =>
         respond 500 (Obj [("success", Bool false);
                           ("message", Str "Erro ao cadastrar planta");
                           ("error", message_of err)])).

(** [POST /api/rooms] *)
Definition post_rooms (body : value) : M response :=
  let name := field "name" body in
  let description := field "description" body in
  let creator_id := field "creator_id" body in
  if negb (truthy name) || negb (truthy creator_id) then
    respond 400 (error "Name and creator ID are required")
  else
    pool_connect ;;
    try_catch_finally
      (client_query BEGIN [] ;;
       roomResult <- client_query insert_room [name; description; creator_id] ;;
       client_query insert_room_member
         [field "id" (index 0 (rows roomResult)); creator_id] ;;
       client_query COMMIT [] ;;
       respond 201 (index 0 (rows roomResult)))
      (fun err =>
         client_query ROLLBACK [] ;;
         respond 500 (Obj [("error", Str "Database operation failed");
                           ("details", message_of err);
                           ("code", code_of err)]))
      client_release.

(** [GET /api/rooms/:roomId/messages] *)
Definition get_room_messages (roomId : string) (query : value) : M response :=
  let limit := default (Num 50) (field "limit" query) in
  try_catch
    (selected <- pool_query select_messages [Str roomId; limit] ;;
     respond 200 (Arr (rev (rows selected))))
    (fun err => respond 500 (error "Failed to fetch messages")).

(** [POST /api/rooms/:roomId/messages] *)
Definition post_room_messages (roomId : string) (body : value) : M response :=
  let sender_id := field "sender_id" body in
  let content := field "content" body in
  if negb (truthy sender_id) || negb (truthy content) then
    respond 400 (error "Sender ID and content are required")
  else
    try_catch
      (memberCheck <- pool_query select_room_member [Str roomId; sender_id] ;;
       if (rowCount memberCheck =? 0)%nat then
         respond 403 (error "User is not a member of this room")
       else
         inserted <- pool_query insert_message [Str roomId; sender_id; content] ;;
         respond 201 (index 0 (rows inserted)))
      (fun err => respond 500 (error "Failed to send message")).

(** [POST /api/rooms/:roomId/join] *)
Definition post_room_join (roomId : string) (body : value) : M response :=
  let user_id := field "user_id" body in
  if negb (truthy user_id) then
    respond 400 (error "User ID is required")
  else
    try_catch
      (existingMember <- pool_query select_room_member [Str roomId; user_id] ;;
       if (0 <? rowCount existingMember)%nat then
         respond 200 (Obj [("message", Str "User is already a member")])
       else
         pool_query insert_room_member [Str roomId; user_id] ;;
         respond 200 (Obj [("message", Str "Successfully joined room")]))
      (fun err => respond 500 (error "Failed to join room")).

End Handlers.

(** The two answers of [POST /api/rooms/:roomId/join]. *)
Definition already : outcome response :=
  Ok {| status := 200; json := Obj [("message", Str "User is already a member")] |}.

Definition joined : outcome response :=
  Ok {| status := 200; json := Obj [("message", Str "Successfully joined room")] |}.

Section Planted.

Context {pg : driver}.

(** The row [POST /api/plants] inserts for a request, when every column
    takes its value: an optional field that is not truthy is bound as
    [null]. *)
Definition planted (body : value) (fresh : Z) : option Plant.t :=
  plant_of_params
    [or (field "nome_cientifico" body) Null;
     or (field "nome_popular" body) Null;
     or (field "detalhes" body) Null;
     or (field "data_plantio" body) Null;
     or (field "fonte" body) Null;
     or (field "usuario_id" body) Null;
     field "latitude" body;
     field "longitude" body]
    fresh.

End Planted.

(** The discipline of a handler that works in a transaction, read off the
    events it adds to the trace: the connection is taken, [BEGIN] comes
    first, [COMMIT] or [ROLLBACK] is issued, and the release comes last. *)
Definition ends_transaction (e : event) : bool :=
  match e with
  | Client COMMIT | Client ROLLBACK => true
  | _ => false
  end.

Definition is_release (e : event) : bool :=
  match e with
  | Release => true
  | _ => false
  end.

Definition disciplined (events : list event) : bool :=
  match events with
  | Connect :: Client BEGIN :: rest =>
      existsb ends_transaction rest && is_release (last rest Connect)
  | _ => false
  end.

End Server.

(* ================================================================== *)
(** * What the handlers write and keep *)
(* ================================================================== *)

Import Server.

Module Effects.

(** A handler that answers 400 exactly when [missing] holds, and then
    leaves the world as it found it. *)
Definition refuses_exactly (h : M response) (missing : bool) (w : world) : Prop :=
  (missing = true -> exists v, h w = (Ok {| status := 400; json := v |}, w))
  /\ (missing = false -> forall r, fst (h w) = Ok r -> status r <> 400).

(** The handler sent no response after a [ROLLBACK] and released the
    connection. *)
Definition rollback_last (events : list event) : bool :=
  match rev events with
  | Release :: Client ROLLBACK :: _ => true
  | _ => false
  end.

Section Rows.

Context {pg : driver} {js : engine}.

(** The row a registration inserts. *)
Definition registered (id : Z) (u : string) (password : value) : tables :=
  {| users := [User.mk id u (pg_text password)]; plantas := []; rooms := [];
     room_members := []; messages := [] |}.

(** Every stored username is a lowercased one and no two users share
    one. *)
Definition usernames_kept (t : tables) : Prop :=
  NoDup (map User.username (users t))
  /\ Forall (fun row => exists s, User.username row = lower s) (users t).

End Rows.

(** An optional field of a request and the column it ends in: [null] when
    the value sent is not truthy, and what the column makes of the value
    when it is. *)
Definition kept_or_null (typed : value -> option value) (sent stored : value)
  : Prop :=
  (truthy sent = false -> stored = Null)
  /\ (truthy sent = true -> typed sent = Some stored).

(** The row a plant creation inserts. *)
Definition plant_row (p : Plant.t) : tables :=
  {| users := []; plantas := [p]; rooms := []; room_members := []; messages := [] |}.

(** The row a message inserts. *)
Definition message_row (m : Message.t) : tables :=
  {| users := []; plantas := []; rooms := []; room_members := []; messages := [m] |}.

(** Every message comes from a member of its room. *)
Definition senders_are_members (t : tables) : Prop :=
  forall m, In m (messages t) ->
            In (Message.room_id m, Message.sender_id m) (room_members t).

End Effects.

Import Effects.

Import Server.

(* ================================================================== *)
(** * A driver and a store to run the handlers on *)
(* ================================================================== *)


Module Sample.

(** A driver that reads an integer from a number or from decimal digits and
    stores a value as its text. *)
Definition decimal_int (v : value) : option Z :=
  match v with
  | Num n => Some n
  | Str s =>
      if (s =? "")%string then None
      else option_map Z.of_int (NilEmpty.int_of_string s)
  | _ => None
  end.

(** A numeric column that returns the integer read; a date column that
    returns the day as the instant of its midnight. *)
Definition decimal_numeric (v : value) : option value :=
  option_map Num (decimal_int v).

Definition midnight (v : value) : option value :=
  match v with
  | Str s => Some (Str (s ++ "T00:00:00.000Z"))
  | _ => None
  end.

Definition decimal_driver : driver :=
  {| pg_int := decimal_int;
     pg_text := to_string;
     pg_numeric := decimal_numeric;
     pg_date := midnight;
     pg_text_str := fun s => eq_refl;
     pg_int_num := fun n => eq_refl |}.

(** An engine for requests written in ASCII, where lowercasing is the fold
    of [A] to [Z]. *)
Definition ascii_lower_char (c : ascii) : ascii :=
  let n := N_of_ascii c in
  if ((65 <=? n) && (n <=? 90))%N then ascii_of_N (n + 32) else c.

Fixpoint ascii_lower (s : string) : string :=
  match s with
  | EmptyString => EmptyString
  | String c rest => String (ascii_lower_char c) (ascii_lower rest)
  end.

Definition ascii_engine : engine := {| lower := ascii_lower |}.

(** A store that answers every statement, holding the tables [t]. *)
Definition serving (t : tables) : world :=
  {| committed := t; txn := None; next := 100;
     oracle := fun _ => false; trace := [] |}.

Definition ana : User.t := User.mk 1 "ana" "s3gredo".

Definition posted (id room sender time : Z) : Message.t :=
  Message.mk id room sender (Str "oi") time.

(** One user, member of room 7; five messages in room 7, stored out of
    order, and one in room 8. *)
Definition forum : tables :=
  {| users := [ana];
     plantas := [];
     rooms := [];
     room_members := [(7, 1)];
     messages := [posted 13 7 1 30; posted 11 7 1 10; posted 15 7 1 50;
                  posted 20 8 1 99; posted 12 7 1 20; posted 14 7 1 40] |}.

(** Requests. *)
Definition ana_again : value := Obj [("username", Str "Ana"); ("password", Str "x")].

Definition ipe : value :=
  Obj [("nome_popular", Str "Ipe"); ("latitude", Num (-8)); ("longitude", Num (-35));
       ("detalhes", Str "florido"); ("data_plantio", Str "2024-05-01")].

(** The row the store makes of [ipe] when it generates [100]. *)
Definition ipe_row : Plant.t :=
  Plant.mk 100 Null (Str "Ipe") (Str "florido") (Str "2024-05-01T00:00:00.000Z")
           Null Null (Num (-8)) (Num (-35)) 100.

Definition ipe_at_zero : value :=
  Obj [("nome_popular", Str "Ipe"); ("latitude", Num 0); ("longitude", Num (-35))].

Definition bia_joins : value := Obj [("user_id", Num 2)].

Definition bia_says : value := Obj [("sender_id", Num 2); ("content", Str "bom dia")].

Definition ana_logs_in : value :=
  Obj [("username", Str "ANA"); ("password", Str "s3gredo")].

Definition bia_registers : value :=
  Obj [("username", Str "Bia"); ("password", Str "x")].

Definition bia_registers_again : value :=
  Obj [("username", Str "BIA"); ("password", Str "y")].

Definition bia_logs_in : value :=
  Obj [("username", Str "bIA"); ("password", Str "x")].

Definition numbered_user : value :=
  Obj [("username", Num 5); ("password", Str "x")].

Definition mangueiras : value :=
  Obj [("name", Str "Mangueiras"); ("creator_id", Num 1)].

Definition ana_says : value := Obj [("sender_id", Num 1); ("content", Str "bom dia")].

(** The forum with ana a member of room 8 as well. *)
Definition two_rooms : tables :=
  {| users := users forum; plantas := []; rooms := [];
     room_members := [(7, 1); (8, 1)]; messages := messages forum |}.

(** A store that cannot be reached: the first interaction fails. *)
Definition unreachable (t : tables) : world :=
  {| committed := t; txn := None; next := 100;
     oracle := fun n => Nat.eqb n 0; trace := [] |}.

End Sample.


(* ================================================================== *)
(** * Properties *)
(* ================================================================== *)

Section Props.

Context {pg : driver} {js : engine}.

(** ** Values and tables *)

Lemma strict_eq_str (p : value) (s : string) :
  strict_eq p (Str s) = true <-> p = Str s.
Proof.
  destruct p; simpl; split; try discriminate; intro H.
  - apply String.eqb_eq in H. now subst.
  - inversion H. apply String.eqb_refl.
Qed.

Lemma truthy_str (s : string) : s <> "" -> truthy (Str s) = true.
Proof.
  intro H. simpl. now destruct (String.eqb_spec s "").
Qed.

Lemma add_empty_r (t : tables) : add t empty = t.
Proof.
  destruct t. unfold add. simpl. now rewrite !app_nil_r.
Qed.

Lemma add_empty_l (t : tables) : add empty t = t.
Proof. now destruct t. Qed.

Lemma add_assoc (a b c : tables) : add a (add b c) = add (add a b) c.
Proof. unfold add. cbn. now rewrite !app_assoc. Qed.

Lemma filter_hit {A} (p : A -> bool) (x : A) (l : list A) :
  In x l -> p x = true -> exists y rest, filter p l = y :: rest.
Proof.
  intros Hin Hp.
  assert (H : In x (filter p l)) by (apply filter_In; auto).
  destruct (filter p l) as [|y rest]; [contradiction | eauto].
Qed.

Lemma filter_miss {A} (p : A -> bool) (l : list A) :
  (forall x, In x l -> p x = false) -> filter p l = [].
Proof.
  induction l as [|a l IH]; intro H; simpl; [reflexivity|].
  rewrite (H a (or_introl eq_refl)). apply IH. intros x Hx. apply H. now right.
Qed.

Lemma is_member_true (r u : Z) (m : member) : is_member r u m = true <-> m = (r, u).
Proof.
  destruct m as [a b]. unfold is_member. simpl.
  rewrite andb_true_iff, !Z.eqb_eq. split.
  - intros [-> ->]. reflexivity.
  - intros [= -> ->]. auto.
Qed.

Lemma members_found (r u : Z) (l : list member) :
  In (r, u) l -> exists rest, filter (is_member r u) l = (r, u) :: rest.
Proof.
  intro Hin.
  destruct (filter_hit (is_member r u) (r, u) l Hin) as (y & rest & Hf).
  - now apply is_member_true.
  - assert (Hy : In y (filter (is_member r u) l)) by (rewrite Hf; now left).
    apply filter_In in Hy. destruct Hy as [_ Hy]. apply is_member_true in Hy.
    subst y. eauto.
Qed.

Lemma members_missing (r u : Z) (l : list member) :
  ~ In (r, u) l -> filter (is_member r u) l = [] /\ existsb (is_member r u) l = false.
Proof.
  intro Hout.
  assert (H : forall m, In m l -> is_member r u m = false).
  { intros m Hm. destruct (is_member r u m) eqn:E; [|reflexivity].
    apply is_member_true in E. subst m. contradiction. }
  split; [now apply filter_miss|].
  destruct (existsb (is_member r u) l) eqn:E; [|reflexivity].
  apply existsb_exists in E. destruct E as (m & Hm & Hm').
  rewrite (H m Hm) in Hm'. discriminate.
Qed.

Lemma member_eq_dec (a b : member) : {a = b} + {a <> b}.
Proof.
  destruct a as [a1 a2], b as [b1 b2].
  destruct (Z.eq_dec a1 b1) as [-> | H1]; [|right; congruence].
  destruct (Z.eq_dec a2 b2) as [-> | H2]; [left; reflexivity | right; congruence].
Qed.

(** ** What a statement leaves *)

Lemma visible_log (e : event) (w : world) : visible (log e w) = visible w.
Proof. reflexivity. Qed.

Lemma visible_stored (new : tables) (e : event) (w : world) :
  visible (tick (store new (log e w))) = add (visible w) new.
Proof.
  unfold visible, store. cbn. destruct (txn w) eqn:Htxn; cbn; rewrite ?Htxn;
    [apply add_assoc | reflexivity].
Qed.

Lemma committed_stored (new : tables) (e : event) (w : world) :
  txn w = None -> committed (tick (store new (log e w))) = add (committed w) new.
Proof. intro Htxn. unfold store. cbn. now rewrite Htxn. Qed.

Lemma committed_read (e : event) (w : world) :
  committed (tick (store empty (log e w))) = committed w.
Proof.
  unfold store. cbn. destruct (txn w); cbn; [reflexivity | apply add_empty_r].
Qed.

Lemma txn_stored (new : tables) (e : event) (w : world) :
  txn w = None -> txn (tick (store new (log e w))) = None.
Proof. intro Htxn. unfold store. cbn. now rewrite Htxn. Qed.

Lemma quiet_stored (new : tables) (e : event) (w : world) :
  quiet w -> quiet (tick (store new (log e w))).
Proof. intros Hq n. unfold store. cbn. destruct (txn w); exact (Hq n). Qed.

Lemma next_stored (new : tables) (e : event) (w : world) :
  next (tick (store new (log e w))) = next w + 1.
Proof. unfold store. cbn. now destruct (txn w). Qed.

(** A statement on the pool when the store answers. *)
Lemma pool_query_quiet (s : statement) (params : list value) (w : world) :
  quiet w ->
  pool_query s params w
  = match run s params (visible w) (next w) with
    | None => (Throw StoreError, log (Pool s) w)
    | Some (r, new) => (Ok r, tick (store new (log (Pool s) w)))
    end.
Proof. intro Hq. unfold pool_query, fails. now rewrite Hq. Qed.

(** ** Running a handler *)

Ltac run_handler :=
  unfold try_catch_finally, try_catch, bind, pool_connect, client_query,
    pool_query, defined, toLowerCase, ret, client_release, respond, fails,
    visible, store;
  cbn;
  unfold username_taken, membership_taken, room_of_params, message_of_params,
    param;
  cbn.

(** One case for each answer of the store. *)
Ltac ask_oracle :=
  match goal with
  | |- context [if oracle ?w ?n then _ else _] => destruct (oracle w n) eqn:?
  end.

(** C1. Registering a username that, lowercased, some user already has is
    answered with status 400, and the committed tables (the users among them)
    are the ones before the request; the latter holds whatever the store
    does. *)
Theorem register_taken (w : world) (body : value) (u : string) (row : User.t) :
  field "username" body = Str u ->
  In row (users (visible w)) ->
  User.username row = lower u ->
  committed (snd (post_auth_register body w)) = committed w /\
  (quiet w ->
   exists text,
     fst (post_auth_register body w)
     = Ok {| status := 400; json := failure text |}).
Proof.
  intros Hu Hin Hrow.
  unfold post_auth_register. rewrite Hu.
  destruct (negb (truthy (Str u)) || negb (truthy (field "password" body))) eqn:Hv.
  { split; [reflexivity | intros _; eexists; reflexivity]. }
  assert (Hhit : has_username (lower u) row = true).
  { unfold has_username. rewrite Hrow. apply String.eqb_refl. }
  unfold visible in Hin.
  run_handler. rewrite !pg_text_str.
  destruct (txn w) as [own|] eqn:Htxn.
  - destruct (filter_hit _ _ _ Hin Hhit) as (y & rest & Hf).
    split.
    + repeat (cbn; rewrite ?Htxn, ?Hf; ask_oracle);
        cbn; rewrite ?Htxn, ?Hf; reflexivity.
    + intro Hq. repeat progress (cbn; rewrite ?Hq, ?Htxn, ?Hf).
      eexists; reflexivity.
  - assert (Hin' : In row (users (add (committed w) empty)))
      by now rewrite add_empty_r.
    destruct (filter_hit _ _ _ Hin' Hhit) as (y & rest & Hf).
    split.
    + repeat (cbn; rewrite ?Htxn, ?Hf; ask_oracle);
        cbn; rewrite ?Htxn, ?Hf; reflexivity.
    + intro Hq. repeat progress (cbn; rewrite ?Hq, ?Htxn, ?Hf).
      eexists; reflexivity.
Qed.

(** C2. A login that carries a username and a password: 404 when no user has
    the lowercased username; 401 when one has it and the password sent is not
    the very string stored; 200 with [success: true] and that user's id and
    username when it is. *)
Theorem login_outcomes (w : world) (body : value) (u : string) :
  quiet w ->
  field "username" body = Str u ->
  u <> "" ->
  truthy (field "password" body) = true ->
  let found := filter (has_username (lower u)) (users (visible w)) in
  let r := fst (post_auth_login body w) in
  (found = [] ->
   r = Ok {| status := 404; json := failure "Usuário não encontrado" |}) /\
  (forall row rest, found = row :: rest ->
     field "password" body <> Str (User.password row) ->
     r = Ok {| status := 401; json := failure "Senha incorreta" |}) /\
  (forall row rest, found = row :: rest ->
     field "password" body = Str (User.password row) ->
     r = Ok {| status := 200;
               json := Obj [("success", Bool true);
                            ("message", Str "Login bem-sucedido");
                            ("user", Obj [("id", Num (User.id row));
                                          ("username", Str (User.username row))])] |}).
Proof.
  intros Hq Hu Hne Hp found r. subst r.
  unfold post_auth_login. rewrite Hu, Hp, (truthy_str u Hne).
  unfold try_catch, bind, pool_query, defined, toLowerCase, ret, respond, fails.
  cbn. rewrite Hq, pg_text_str, visible_log. cbn. fold found.
  repeat split.
  - intros ->. reflexivity.
  - intros row rest -> Hneq. cbn.
    destruct (strict_eq (field "password" body) (Str (User.password row))) eqn:E.
    + apply strict_eq_str in E. contradiction.
    + reflexivity.
  - intros row rest -> Heq. cbn.
    rewrite (proj2 (strict_eq_str _ _) Heq). reflexivity.
Qed.

(** ** Plants *)

Lemma nullable_truthy (typed : value -> option value) (v : value) :
  truthy v = true -> nullable typed v = typed v.
Proof. now destruct v. Qed.

Lemma nullable_or_null (typed : value -> option value) (sent stored : value) :
  nullable typed (or sent Null) = Some stored -> kept_or_null typed sent stored.
Proof.
  unfold or, kept_or_null. destruct (truthy sent) eqn:E; intro H.
  - rewrite (nullable_truthy _ _ E) in H. split; [discriminate | auto].
  - cbn in H. injection H as <-. split; [auto | discriminate].
Qed.

Lemma text_truthy (v : value) : truthy v = true -> text_column v = Str (pg_text v).
Proof. now destruct v. Qed.

Lemma text_or_null (sent : value) :
  kept_or_null (fun v => Some (Str (pg_text v))) sent (text_column (or sent Null)).
Proof.
  unfold or, kept_or_null. destruct (truthy sent) eqn:E.
  - rewrite (text_truthy _ E). split; [discriminate | auto].
  - split; [auto | discriminate].
Qed.

(** The columns of the row a request plants. *)
Lemma planted_columns (body : value) (fresh : Z) (row : Plant.t) :
  planted body fresh = Some row ->
  truthy (field "latitude" body) = true ->
  truthy (field "longitude" body) = true ->
  kept_or_null (fun v => Some (Str (pg_text v)))
    (field "nome_cientifico" body) (Plant.nome_cientifico row)
  /\ kept_or_null (fun v => Some (Str (pg_text v)))
       (field "nome_popular" body) (Plant.nome_popular row)
  /\ kept_or_null (fun v => Some (Str (pg_text v)))
       (field "detalhes" body) (Plant.detalhes row)
  /\ kept_or_null pg_date (field "data_plantio" body) (Plant.data_plantio row)
  /\ kept_or_null (fun v => Some (Str (pg_text v)))
       (field "fonte" body) (Plant.fonte row)
  /\ kept_or_null (fun v => option_map Num (pg_int v))
       (field "usuario_id" body) (Plant.usuario_id row)
  /\ pg_numeric (field "latitude" body) = Some (Plant.latitude row)
  /\ pg_numeric (field "longitude" body) = Some (Plant.longitude row).
Proof.
  unfold planted, plant_of_params, param. cbn [nth Nat.sub].
  unfold date_column, int_column, numeric_column.
  intros H Hlat Hlon.
  rewrite (nullable_truthy _ _ Hlat), (nullable_truthy _ _ Hlon) in H.
  destruct (nullable pg_date _) eqn:Edate; [|discriminate].
  destruct (nullable (fun v => option_map Num (pg_int v)) _) eqn:Eint;
    [|discriminate].
  destruct (pg_numeric (field "latitude" body)); [|discriminate].
  destruct (pg_numeric (field "longitude" body)); [|discriminate].
  injection H as <-. cbn.
  apply nullable_or_null in Edate, Eint.
  repeat (split; [first [assumption | apply text_or_null]|]).
  split; reflexivity.
Qed.

(** C3, as the handler has it. With both names empty the answer is 400 and
    the store is not touched, whatever the coordinates.  With a name and two
    truthy coordinates, and a store that takes the values, the answer is 201
    with the row inserted, which the connection then sees (and which is
    committed when the connection has no transaction open); each optional
    column of that row is [null] when the value sent is not truthy and
    otherwise what its column makes of the value: the text of a text field
    (a string is its own text), the date and the integer as the driver
    returns them. *)
Theorem plant_creation (w : world) (body : value) :
  (truthy (field "nome_cientifico" body) = false ->
   truthy (field "nome_popular" body) = false ->
   post_plants body w
   = (Ok {| status := 400;
            json := failure "Pelo menos o nome científico ou popular deve ser fornecido" |},
      w)) /\
  (forall row,
   truthy (field "nome_cientifico" body) = true
   \/ truthy (field "nome_popular" body) = true ->
   truthy (field "latitude" body) = true ->
   truthy (field "longitude" body) = true ->
   quiet w ->
   planted body (next w) = Some row ->
   fst (post_plants body w)
   = Ok {| status := 201;
           json := Obj [("success", Bool true);
                        ("plant", Plant.to_js row);
                        ("message", Str "Planta cadastrada com sucesso")] |}
   /\ visible (snd (post_plants body w)) = add (visible w) (plant_row row)
   /\ (txn w = None ->
       committed (snd (post_plants body w)) = add (committed w) (plant_row row))
   /\ kept_or_null (fun v => Some (Str (pg_text v)))
        (field "nome_cientifico" body) (field "nome_cientifico" (Plant.to_js row))
   /\ kept_or_null (fun v => Some (Str (pg_text v)))
        (field "nome_popular" body) (field "nome_popular" (Plant.to_js row))
   /\ kept_or_null (fun v => Some (Str (pg_text v)))
        (field "detalhes" body) (field "detalhes" (Plant.to_js row))
   /\ kept_or_null pg_date
        (field "data_plantio" body) (field "data_plantio" (Plant.to_js row))
   /\ kept_or_null (fun v => Some (Str (pg_text v)))
        (field "fonte" body) (field "fonte" (Plant.to_js row))
   /\ kept_or_null (fun v => option_map Num (pg_int v))
        (field "usuario_id" body) (field "usuario_id" (Plant.to_js row))).
Proof.
  split.
  - intros Hc Hp. unfold post_plants. rewrite Hc, Hp. reflexivity.
  - intros row Hname Hlat Hlon Hq Hrow.
    destruct (planted_columns body (next w) row Hrow Hlat Hlon)
      as (H1 & H2 & H3 & H4 & H5 & H6 & _).
    assert (Hn : negb (truthy (field "nome_cientifico" body))
                 && negb (truthy (field "nome_popular" body)) = false).
    { destruct Hname as [-> | ->]; [reflexivity | apply andb_false_r]. }
    assert (Hrun :
      post_plants body w
      = (Ok {| status := 201;
               json := Obj [("success", Bool true);
                            ("plant", Plant.to_js row);
                            ("message", Str "Planta cadastrada com sucesso")] |},
         tick (store (plant_row row) (log (Pool insert_planta) w)))).
    { unfold post_plants. rewrite Hn, Hlat, Hlon. cbn [negb orb].
      unfold try_catch, bind, respond, ret.
      rewrite (pool_query_quiet _ _ _ Hq). cbn [run].
      unfold planted in Hrow. rewrite Hrow. reflexivity. }
    rewrite Hrun. cbn [fst snd].
    split; [reflexivity|].
    split; [apply visible_stored|].
    split; [intro Htxn; now apply committed_stored|].
    repeat (split; [assumption|]). assumption.
Qed.

(** C10, as the handler has it. When a name is given and the latitude or the
    longitude is [0] or the empty string, the answer is 400 with the message
    about the coordinates, and the store is not touched. *)
Theorem plant_zero_coordinate (w : world) (body : value) :
  truthy (field "nome_cientifico" body) = true
  \/ truthy (field "nome_popular" body) = true ->
  In (field "latitude" body) [Num 0; Str ""]
  \/ In (field "longitude" body) [Num 0; Str ""] ->
  post_plants body w
  = (Ok {| status := 400;
           json := failure "Coordenadas geográficas são obrigatórias" |},
     w).
Proof.
  intros Hname Hzero. unfold post_plants.
  assert (Hn : negb (truthy (field "nome_cientifico" body))
               && negb (truthy (field "nome_popular" body)) = false).
  { destruct Hname as [-> | ->]; [reflexivity | apply andb_false_r]. }
  assert (Hc : negb (truthy (field "latitude" body))
               || negb (truthy (field "longitude" body)) = true).
  { destruct Hzero as [H | H]; simpl in H;
      destruct H as [<- | [<- | []]]; simpl;
      reflexivity || apply orb_true_r. }
  rewrite Hn, Hc. reflexivity.
Qed.

(** ** The species query *)

Lemma build_is_spec (search familia rpa : value) :
  Especies.build search familia rpa
  = (Especies.spec_query search familia rpa,
     Especies.spec_params search familia rpa).
Proof.
  unfold Especies.build, Especies.spec_query, Especies.spec_params,
    Especies.tombadas_conditions, Especies.censo_conditions,
    Especies.tombadas_filters, Especies.censo_filters, Especies.when.
  cbn [List.filter Especies.supplied].
  destruct (truthy search), (truthy familia), (truthy rpa); reflexivity.
Qed.

Lemma build_text_by_presence (search familia rpa : value) :
  fst (Especies.build search familia rpa)
  = Especies.query_for (truthy search) (truthy familia) (truthy rpa).
Proof.
  unfold Especies.query_for, Especies.build, Especies.when.
  destruct (truthy search), (truthy familia), (truthy rpa); reflexivity.
Qed.

(** C4. The statement the builder produces is the tombadas select, the
    conditions of the first branch, [UNION ALL] with the censo select that
    keeps its non-null scientific name, the conditions of the second branch,
    and the ordering by popular name last.  The first branch takes the
    supplied (truthy) inputs among search, familia, rpa in that order, the
    second those among search and rpa only; the conditions of a branch follow
    [AND] and are joined by [AND]; each names by [$n] the position its own
    parameter has in the list, the second branch counting on from the
    first. *)
Theorem especies_query_shape (search familia rpa : value) :
  let dollar := fun n : nat => "$" ++ NilZero.string_of_uint (Nat.to_uint n) in
  let text := fun c : Especies.filter * nat =>
    match fst c with
    | Especies.BySearch =>
        "(nome_popular ILIKE " ++ dollar (snd c) ++ " OR nome_cientifico ILIKE "
          ++ dollar (snd c) ++ ")"
    | Especies.ByFamilia => "familia = " ++ dollar (snd c)
    | Especies.ByRpa => "rpa = " ++ dollar (snd c)
    end in
  let clause := fun conds : list (Especies.filter * nat) =>
    match conds with
    | [] => ""
    | _ => " AND " ++ String.concat " AND " (map text conds)
    end in
  let sent := fun f =>
    match f with
    | Especies.BySearch => truthy search
    | Especies.ByFamilia => truthy familia
    | Especies.ByRpa => truthy rpa
    end in
  let value_of := fun f =>
    match f with
    | Especies.BySearch => Str ("%" ++ to_string search ++ "%")
    | Especies.ByFamilia => familia
    | Especies.ByRpa => rpa
    end in
  let tombadas :=
    List.filter sent [Especies.BySearch; Especies.ByFamilia; Especies.ByRpa] in
  let censo := List.filter sent [Especies.BySearch; Especies.ByRpa] in
  let first := combine tombadas (seq 1 (List.length tombadas)) in
  let second :=
    combine censo (seq (1 + List.length tombadas) (List.length censo)) in
  Especies.build search familia rpa
  = ("
      SELECT 
        'arvore_tombada' AS tipo,
        id,
        nome_cientifico, 
        nome_popular,
        familia,
        latitude,
        longitude,
        NULL AS altura,
        NULL AS dap,
        rpa
      FROM arvores_tombadas
      WHERE 1=1
    " ++ clause first ++ "
      UNION ALL
      SELECT 
        'censo' AS tipo,
        id,
        nome_cientifico,
        nome_popular,
        NULL AS familia,
        y_wgs84 AS latitude,
        x_wgs84 AS longitude,
        altura,
        dap,
        rpa
      FROM censo_arboreo
      WHERE nome_cientifico IS NOT NULL
    " ++ clause second ++ " ORDER BY nome_popular",
     map value_of (tombadas ++ censo))
  /\ (forall f n, In (f, n) (first ++ second) ->
        nth_error (snd (Especies.build search familia rpa)) (n - 1)
        = Some (value_of f)).
Proof.
  cbv zeta. unfold Especies.build, Especies.when.
  destruct (truthy search), (truthy familia), (truthy rpa);
    (split; [reflexivity|]);
    intros f n H; cbn in H;
    repeat (destruct H as [H | H]; [injection H as <- <-; reflexivity|]);
    destruct H.
Qed.

(** C5, as the builder has it. Two searches whose inputs are truthy for the
    same subset get the same statement text; the values travel in the
    parameter list only, which holds the search pattern, familia and rpa of
    the first branch and the search pattern and rpa of the second, each when
    truthy. *)
Theorem especies_text_ignores_values (s f r s' f' r' : value) :
  truthy s = truthy s' ->
  truthy f = truthy f' ->
  truthy r = truthy r' ->
  fst (Especies.build s f r) = fst (Especies.build s' f' r')
  /\ snd (Especies.build s f r)
     = ((if truthy s then [Str ("%" ++ to_string s ++ "%")] else [])
          ++ (if truthy f then [f] else [])
          ++ (if truthy r then [r] else [])
          ++ (if truthy s then [Str ("%" ++ to_string s ++ "%")] else [])
          ++ (if truthy r then [r] else []))%list.
Proof.
  intros Hs Hf Hr. split.
  - rewrite !build_text_by_presence. now rewrite Hs, Hf, Hr.
  - unfold Especies.build, Especies.when.
    destruct (truthy s), (truthy f), (truthy r); reflexivity.
Qed.

(** ** Rooms *)

(** What a join does when the store answers. *)
Lemma join_run (w : world) (roomId : string) (body : value) (r u : Z) :
  quiet w ->
  truthy (field "user_id" body) = true ->
  pg_int (Str roomId) = Some r ->
  pg_int (field "user_id" body) = Some u ->
  let checked := tick (store empty (log (Pool select_room_member) w)) in
  (In (r, u) (room_members (visible w)) ->
   post_room_join roomId body w = (already, checked)) /\
  (~ In (r, u) (room_members (visible w)) ->
   post_room_join roomId body w
   = (joined,
      tick (store (membership r u) (log (Pool insert_room_member) checked)))).
Proof.
  intros Hq Hid Hr Hu checked.
  assert (Hq' : quiet checked) by now apply quiet_stored.
  assert (Hsee : visible checked = visible w)
    by (unfold checked; now rewrite visible_stored, add_empty_r).
  unfold post_room_join. rewrite Hid. cbn [negb].
  unfold try_catch, bind, respond, ret.
  rewrite (pool_query_quiet _ _ _ Hq). cbn [run]. unfold param. cbn [nth Nat.sub].
  rewrite Hr, Hu. fold checked.
  split; intro Hm.
  - destruct (members_found r u _ Hm) as (rest & ->). reflexivity.
  - destruct (members_missing r u _ Hm) as (-> & Hex).
    cbn [selected rowCount List.length map Nat.ltb Nat.leb].
    rewrite (pool_query_quiet _ _ _ Hq'). cbn [run]. unfold param. cbn [nth Nat.sub].
    rewrite Hr, Hu, Hsee. unfold membership_taken. rewrite Hex. reflexivity.
Qed.

(** After a join the connection sees the pair as a member, the store still
    answers, and no message has been written. *)
Lemma join_makes_member (w : world) (roomId : string) (body : value) (r u : Z) :
  quiet w ->
  truthy (field "user_id" body) = true ->
  pg_int (Str roomId) = Some r ->
  pg_int (field "user_id" body) = Some u ->
  let w' := snd (post_room_join roomId body w) in
  quiet w' /\
  In (r, u) (room_members (visible w')) /\
  messages (visible w') = messages (visible w).
Proof.
  intros Hq Hid Hr Hu w'. subst w'.
  destruct (join_run w roomId body r u Hq Hid Hr Hu) as [Hin Hout].
  destruct (in_dec member_eq_dec (r, u) (room_members (visible w))) as [Hm | Hm].
  - rewrite (Hin Hm). cbn [snd]. rewrite visible_stored, add_empty_r.
    split; [now apply quiet_stored | auto].
  - rewrite (Hout Hm). cbn [snd].
    rewrite !visible_stored, add_empty_r.
    split; [now apply quiet_stored, quiet_stored|].
    unfold add, membership. cbn. split.
    + apply in_or_app. right. now left.
    + apply app_nil_r.
Qed.

(** C7. Joining is idempotent. For a pair that is a member already the answer
    is 200 with the note that the user is a member, and nothing is written.
    For a pair that is not, exactly one membership row is inserted, which the
    connection then sees (and which is committed when the connection has no
    transaction open), and the answer is 200. Either way a second join of
    the same pair is of the first kind. *)
Theorem join_idempotent (w : world) (roomId : string) (body : value) (r u : Z) :
  quiet w ->
  truthy (field "user_id" body) = true ->
  pg_int (Str roomId) = Some r ->
  pg_int (field "user_id" body) = Some u ->
  let first := post_room_join roomId body w in
  let second := post_room_join roomId body (snd first) in
  (In (r, u) (room_members (visible w)) ->
   fst first = already
   /\ visible (snd first) = visible w
   /\ committed (snd first) = committed w) /\
  (~ In (r, u) (room_members (visible w)) ->
   fst first = joined
   /\ visible (snd first) = add (visible w) (membership r u)
   /\ (txn w = None ->
       committed (snd first) = add (committed w) (membership r u))) /\
  fst second = already /\
  visible (snd second) = visible (snd first) /\
  committed (snd second) = committed (snd first).
Proof.
  intros Hq Hid Hr Hu first second.
  destruct (join_run w roomId body r u Hq Hid Hr Hu) as [Hin Hout].
  destruct (join_makes_member w roomId body r u Hq Hid Hr Hu) as (Hq' & Hm' & _).
  fold first in Hq', Hm'.
  split; [|split].
  - intro Hm. subst first. rewrite (Hin Hm). cbn [fst snd].
    rewrite visible_stored, add_empty_r, committed_read. auto.
  - intro Hm. subst first. rewrite (Hout Hm). cbn [fst snd].
    rewrite !visible_stored, add_empty_r.
    split; [reflexivity|]. split; [reflexivity|].
    intro Htxn. rewrite committed_stored, committed_read; [reflexivity|].
    now apply txn_stored.
  - subst second.
    destruct (join_run (snd first) roomId body r u Hq' Hid Hr Hu) as [Hagain _].
    rewrite (Hagain Hm'). cbn [fst snd].
    rewrite visible_stored, add_empty_r, committed_read. auto.
Qed.

(** C8. A message from a sender who is not a member of the room is answered
    with 403 and nothing is written. The same request, once the sender has
    joined the room, is answered with 201 and the row that was inserted,
    which the connection then sees. *)
Theorem send_requires_membership
    (w : world) (roomId : string) (body join_body : value) (r u : Z) :
  quiet w ->
  truthy (field "sender_id" body) = true ->
  truthy (field "content" body) = true ->
  pg_int (Str roomId) = Some r ->
  pg_int (field "sender_id" body) = Some u ->
  field "user_id" join_body = field "sender_id" body ->
  let refused := post_room_messages roomId body w in
  let after := snd (post_room_join roomId join_body w) in
  let sent := post_room_messages roomId body after in
  (~ In (r, u) (room_members (visible w)) ->
   fst refused
   = Ok {| status := 403; json := error "User is not a member of this room" |}
   /\ visible (snd refused) = visible w
   /\ committed (snd refused) = committed w) /\
  (exists row,
     fst sent = Ok {| status := 201; json := Message.to_js row |}
     /\ messages (visible (snd sent)) = (messages (visible w) ++ [row])%list
     /\ Message.room_id row = r
     /\ Message.sender_id row = u
     /\ Message.content row = Str (pg_text (field "content" body))).
Proof.
  intros Hq Hs Hc Hr Hu Hsame refused after sent.
  split.
  - intro Hm. subst refused. unfold post_room_messages. rewrite Hs, Hc.
    cbn [negb orb]. unfold try_catch, bind, respond, ret.
    rewrite (pool_query_quiet _ _ _ Hq). cbn [run]. unfold param. cbn [nth Nat.sub].
    rewrite Hr, Hu.
    destruct (members_missing r u _ Hm) as (-> & _).
    cbn [fst snd selected rowCount List.length map Nat.eqb].
    rewrite visible_stored, add_empty_r, committed_read. auto.
  - assert (Hid : truthy (field "user_id" join_body) = true) by now rewrite Hsame.
    assert (Hu' : pg_int (field "user_id" join_body) = Some u) by now rewrite Hsame.
    destruct (join_makes_member w roomId join_body r u Hq Hid Hr Hu')
      as (Hq' & Hm' & Hmsgs).
    fold after in Hq', Hm', Hmsgs.
    destruct (members_found r u _ Hm') as (rest & Hf).
    set (checked := tick (store empty (log (Pool select_room_member) after))).
    assert (Hq'' : quiet checked) by now apply quiet_stored.
    exists (Message.mk (next after + 1) r u (Str (pg_text (field "content" body)))
                       (next after + 1)).
    subst sent. unfold post_room_messages. rewrite Hs, Hc.
    cbn [negb orb]. unfold try_catch, bind, respond, ret.
    rewrite (pool_query_quiet _ _ _ Hq'). cbn [run]. unfold param. cbn [nth Nat.sub].
    rewrite Hr, Hu, Hf. fold checked.
    cbn [selected rowCount List.length map Nat.eqb].
    rewrite (pool_query_quiet _ _ _ Hq''). cbn [run].
    unfold message_of_params, param. cbn [nth Nat.sub].
    rewrite Hr, Hu, (text_truthy _ Hc).
    unfold checked. rewrite next_stored. cbn [fst snd index rows inserted nth].
    rewrite !visible_stored, add_empty_r.
    unfold add. cbn. rewrite Hmsgs. repeat split; reflexivity.
Qed.

(** ** Listing messages *)

Lemma insert_desc_perm (m : Message.t) (l : list Message.t) :
  Permutation (insert_desc m l) (m :: l).
Proof.
  induction l as [|x l IH]; simpl; [reflexivity|].
  destruct (Message.timestamp x <? Message.timestamp m); [reflexivity|].
  rewrite IH. apply perm_swap.
Qed.

Lemma newest_first_perm (l : list Message.t) : Permutation (newest_first l) l.
Proof.
  induction l as [|m l IH]; simpl; [reflexivity|].
  rewrite insert_desc_perm. now constructor.
Qed.

Lemma insert_desc_sorted (m : Message.t) (l : list Message.t) :
  StronglySorted not_older l -> StronglySorted not_older (insert_desc m l).
Proof.
  induction 1 as [|x l Hl IH Hx]; simpl.
  - repeat constructor.
  - destruct (Message.timestamp x <? Message.timestamp m) eqn:E.
    + apply Z.ltb_lt in E. constructor; [now constructor|].
      constructor; [unfold not_older; lia|].
      eapply Forall_impl; [|exact Hx]. unfold not_older. intros; lia.
    + apply Z.ltb_ge in E. constructor; [exact IH|].
      eapply Permutation_Forall; [symmetry; apply insert_desc_perm|].
      constructor; [exact E | exact Hx].
Qed.

Lemma newest_first_sorted (l : list Message.t) :
  StronglySorted not_older (newest_first l).
Proof.
  induction l as [|m l IH]; simpl; [constructor | now apply insert_desc_sorted].
Qed.

Lemma sorted_app_inv {A} (R : A -> A -> Prop) (l1 l2 : list A) :
  StronglySorted R (l1 ++ l2) ->
  StronglySorted R l1 /\ (forall a b, In a l1 -> In b l2 -> R a b).
Proof.
  induction l1 as [|x l1 IH]; simpl; intro H.
  - split; [constructor | contradiction].
  - inversion H as [|? ? Hs Hx]; subst.
    destruct (IH Hs) as [Hs1 Hcross].
    rewrite Forall_app in Hx. destruct Hx as [Hx1 Hx2].
    split; [now constructor|].
    intros a b [<- | Ha] Hb; [|now apply Hcross].
    rewrite Forall_forall in Hx2. now apply Hx2.
Qed.

Lemma sorted_snoc {A} (R : A -> A -> Prop) (l : list A) (x : A) :
  StronglySorted R l -> Forall (fun a => R a x) l -> StronglySorted R (l ++ [x]).
Proof.
  induction 1 as [|y l Hl IH Hy]; simpl; intro Hx.
  - repeat constructor.
  - inversion Hx; subst. constructor; [now apply IH|].
    rewrite Forall_app. split; [exact Hy | now repeat constructor].
Qed.

Lemma sorted_rev {A} (R : A -> A -> Prop) (l : list A) :
  StronglySorted R l -> StronglySorted (fun a b => R b a) (rev l).
Proof.
  induction 1 as [|x l Hl IH Hx]; simpl; [constructor|].
  apply sorted_snoc; [exact IH|].
  rewrite Forall_forall in *. intros a Ha. apply Hx. now apply in_rev.
Qed.

(** C6. The listing answers with the [n] newest messages of the room, all of
    them when the room has fewer, oldest first: the room's messages split
    into the ones returned and the rest, none of the rest is newer than a
    returned one, and the returned ones are in ascending order of timestamp.
    [n] is the limit of the request, and 50 when the request has none. *)
Theorem messages_most_recent
    (w : world) (roomId : string) (query : value) (r : Z) (n : nat) :
  quiet w ->
  pg_int (Str roomId) = Some r ->
  (field "limit" query = Undefined -> n = 50%nat) ->
  (field "limit" query <> Undefined ->
   pg_int (field "limit" query) = Some (Z.of_nat n)) ->
  let room :=
    filter (fun m => Message.room_id m =? r) (messages (visible w)) in
  exists recent rest,
    fst (get_room_messages roomId query w)
    = Ok {| status := 200; json := Arr (map Message.to_js recent) |}
    /\ Permutation (rest ++ recent) room
    /\ List.length recent = Nat.min n (List.length room)
    /\ StronglySorted
         (fun a b => Message.timestamp a <= Message.timestamp b) recent
    /\ (forall old new, In old rest -> In new recent ->
                        Message.timestamp old <= Message.timestamp new).
Proof.
  intros Hq Hr Hnone Hsome room.
  assert (Hn : pg_int (default (Num 50) (field "limit" query)) = Some (Z.of_nat n)).
  { destruct (field "limit" query) eqn:E;
      try (apply Hsome; discriminate).
    cbn. rewrite (Hnone eq_refl). apply pg_int_num. }
  set (sorted := newest_first room).
  exists (rev (firstn n sorted)), (rev (skipn n sorted)).
  assert (Hs : StronglySorted not_older (firstn n sorted ++ skipn n sorted)).
  { rewrite firstn_skipn. apply newest_first_sorted. }
  apply sorted_app_inv in Hs. destruct Hs as [Hfirst Hcross].
  repeat split.
  - unfold get_room_messages, try_catch, bind, respond, ret.
    rewrite (pool_query_quiet _ _ _ Hq). cbn [run]. unfold param. cbn [nth Nat.sub].
    rewrite Hr, Hn.
    destruct (Z.ltb_spec (Z.of_nat n) 0) as [Hneg | _]; [lia|].
    cbn [fst selected rows]. rewrite Nat2Z.id, map_rev. reflexivity.
  - rewrite <- rev_app_distr, firstn_skipn, <- Permutation_rev.
    apply newest_first_perm.
  - rewrite length_rev, length_firstn. unfold sorted.
    now rewrite (Permutation_length (newest_first_perm room)).
  - apply (sorted_rev not_older). exact Hfirst.
  - intros old new Hold Hnew. apply in_rev in Hold, Hnew.
    exact (Hcross new old Hnew Hold).
Qed.

(** ** Transactions *)

(** Room creation on a connection with no transaction open: whatever the
    store does, either nothing is committed, or the room and the membership
    of its creator are, together. *)
Lemma post_rooms_atomic (w : world) (body : value) :
  txn w = None ->
  committed (snd (post_rooms body w)) = committed w
  \/ exists room,
       fst (post_rooms body w) = Ok {| status := 201; json := Room.to_js room |}
       /\ committed (snd (post_rooms body w))
          = add (committed w) (room_with_creator room).
Proof.
  intro Htxn. unfold post_rooms.
  destruct (negb (truthy (field "name" body))
            || negb (truthy (field "creator_id" body))); [now left|].
  run_handler. unfold param. cbn.
  repeat (cbn; rewrite ?Htxn, ?pg_int_num;
          match goal with
          | |- context [if oracle ?w ?n then _ else _] =>
              destruct (oracle w n) eqn:?
          | |- context [match pg_int ?v with _ => _ end] =>
              destruct (pg_int v) eqn:?
          | |- context [if existsb ?p ?l then _ else _] =>
              destruct (existsb p l) eqn:?
          end);
    cbn; rewrite ?Htxn; cbn; try (left; reflexivity).
  right. eexists. split; [reflexivity|].
  unfold add, room_with_creator. cbn. rewrite !app_nil_r. reflexivity.
Qed.

(** Room creation keeps the discipline: once the connection is there, the
    handler begins, ends with [COMMIT] or goes through [ROLLBACK], and
    releases the connection last, whatever the store does. *)
Lemma post_rooms_discipline (w : world) (body : value) :
  truthy (field "name" body) = true ->
  truthy (field "creator_id" body) = true ->
  oracle w (List.length (trace w)) = false ->
  exists events,
    trace (snd (post_rooms body w)) = (trace w ++ events)%list
    /\ disciplined events = true.
Proof.
  intros Hname Hcreator Hconnect. unfold post_rooms.
  rewrite Hname, Hcreator.
  run_handler. unfold param. cbn. rewrite Hconnect.
  repeat (cbn; rewrite ?pg_int_num;
          match goal with
          | |- context [if oracle ?w ?n then _ else _] =>
              destruct (oracle w n) eqn:?
          | |- context [match pg_int ?v with _ => _ end] =>
              destruct (pg_int v) eqn:?
          | |- context [if existsb ?p ?l then _ else _] =>
              destruct (existsb p l) eqn:?
          | |- context [match txn ?w with _ => _ end] =>
              destruct (txn w) eqn:?
          end);
    cbn; rewrite <- ?app_assoc; cbn;
    eexists; (split; [reflexivity|]); reflexivity.
Qed.

(** So does registration, as long as the username is not found taken. *)
Lemma post_auth_register_discipline (w : world) (body : value) :
  truthy (field "username" body) = true ->
  truthy (field "password" body) = true ->
  oracle w (List.length (trace w)) = false ->
  (forall u, field "username" body = Str u ->
             filter (has_username (lower u)) (users (visible w)) = []) ->
  exists events,
    trace (snd (post_auth_register body w)) = (trace w ++ events)%list
    /\ disciplined events = true.
Proof.
  intros Hname Hpass Hconnect Hfree. unfold post_auth_register.
  rewrite Hname, Hpass.
  destruct (field "username" body) as [| | | |u| |] eqn:Hu;
    run_handler; rewrite Hconnect.
  5: { specialize (Hfree u eq_refl). unfold visible in Hfree.
       rewrite !pg_text_str.
       destruct (txn w) as [own|] eqn:Htxn;
         rewrite ?add_empty_r;
         repeat (repeat progress (cbn; rewrite ?Htxn, ?add_empty_r, ?Hfree);
                 match goal with
                 | |- context [if oracle ?w ?n then _ else _] =>
                     destruct (oracle w n) eqn:?
                 | |- context [if existsb ?p ?l then _ else _] =>
                     destruct (existsb p l) eqn:?
                 end);
         cbn; rewrite ?Htxn, ?Hfree; cbn; rewrite <- ?app_assoc; cbn;
         eexists; (split; [reflexivity|]); reflexivity. }
  all: repeat (cbn;
               match goal with
               | |- context [if oracle ?w ?n then _ else _] =>
                   destruct (oracle w n) eqn:?
               | |- context [match txn ?w with _ => _ end] =>
                   destruct (txn w) eqn:?
               end);
    cbn; rewrite <- ?app_assoc; cbn;
    eexists; (split; [reflexivity|]); reflexivity.
Qed.

(** C9, where the code departs from it. A registration that finds the
    username taken leaves the handler between [BEGIN] and the end of the
    transaction: the connection is released after the [SELECT], with neither
    [COMMIT] nor [ROLLBACK] issued and the transaction still open. *)
Theorem taken_username_skips_rollback
    (w : world) (body : value) (u : string) (row : User.t) :
  quiet w ->
  field "username" body = Str u ->
  u <> "" ->
  truthy (field "password" body) = true ->
  In row (users (visible w)) ->
  User.username row = lower u ->
  let w' := snd (post_auth_register body w) in
  trace w'
  = (trace w ++ [Connect; Client BEGIN; Client select_user_id; Release])%list
  /\ disciplined [Connect; Client BEGIN; Client select_user_id; Release] = false
  /\ txn w' <> None.
Proof.
  intros Hq Hu Hne Hp Hin Hrow w'. subst w'.
  unfold post_auth_register. rewrite Hu, Hp, (truthy_str u Hne).
  assert (Hhit : has_username (lower u) row = true).
  { unfold has_username. rewrite Hrow. apply String.eqb_refl. }
  unfold visible in Hin.
  run_handler. rewrite !pg_text_str.
  destruct (txn w) as [own|] eqn:Htxn.
  - destruct (filter_hit _ _ _ Hin Hhit) as (y & rest & Hf).
    repeat progress (cbn; rewrite ?Hq, ?Htxn, ?Hf).
    rewrite <- !app_assoc. repeat split; discriminate.
  - assert (Hin' : In row (users (add (committed w) empty)))
      by now rewrite add_empty_r.
    destruct (filter_hit _ _ _ Hin' Hhit) as (y & rest & Hf).
    repeat progress (cbn; rewrite ?Hq, ?Htxn, ?Hf).
    rewrite <- !app_assoc. repeat split; discriminate.
Qed.

End Props.

(* ================================================================== *)
(** * Further properties of the handlers *)
(* ================================================================== *)

Section Further.

Context {pg : driver} {js : engine}.

Ltac unfold_handler :=
  unfold try_catch_finally, try_catch, bind, pool_connect, client_query,
    pool_query, defined, toLowerCase, ret, client_release, respond, fails,
    visible, store;
  cbn;
  unfold username_taken, membership_taken, room_of_params, message_of_params,
    param;
  cbn.

(** One case for each way a statement can go. *)
Ltac split_path :=
  match goal with
  | |- context [if oracle ?w ?n then _ else _] => destruct (oracle w n) eqn:?
  | |- context [match pg_int ?v with _ => _ end] => destruct (pg_int v) eqn:?
  | |- context [match plant_of_params ?p ?n with _ => _ end] =>
      destruct (plant_of_params p n) eqn:?
  | |- context [if existsb ?p ?l then _ else _] => destruct (existsb p l) eqn:?
  | |- context [filter ?p ?l] => destruct (filter p l) eqn:?
  | |- context [if ?b <? 0 then _ else _] => destruct (b <? 0) eqn:?
  | |- context [strict_eq ?a ?b] => destruct (strict_eq a b) eqn:?
  end.

(** Every path of a handler, on a connection with or without a transaction
    left open; [Htxn] names the state of the connection. *)
Ltac all_paths Htxn :=
  repeat (repeat progress (cbn; rewrite ?Htxn, ?pg_text_str, ?pg_int_num);
          split_path);
  cbn; rewrite ?Htxn; cbn.

Lemma visible_clean (w : world) : txn w = None -> visible w = committed w.
Proof. intro Htxn. unfold visible. now rewrite Htxn. Qed.

(** ** Registration *)

(** What a registration on a connection with no transaction open leaves
    behind, whatever the store does: nothing, or one user whose username is
    the lowercased one of the request, free until then. *)
Lemma register_effect (w : world) (body : value) :
  txn w = None ->
  committed (snd (post_auth_register body w)) = committed w
  \/ exists u,
       field "username" body = Str u
       /\ username_taken (lower u) (committed w) = false
       /\ committed (snd (post_auth_register body w))
          = add (committed w) (registered (next w + 1) (lower u) (field "password" body)).
Proof.
  intro Htxn. unfold post_auth_register.
  destruct (negb (truthy (field "username" body))
            || negb (truthy (field "password" body))); [now left|].
  destruct (field "username" body) as [| | | |u| |] eqn:Hu;
    unfold_handler; rewrite ?pg_text_str, ?Htxn, ?add_empty_r.
  5: { repeat (cbn; rewrite ?Htxn, ?add_empty_r; split_path);
         cbn; rewrite ?Htxn; cbn; try (left; reflexivity).
       right. exists u. rewrite add_empty_l. auto. }
  all: repeat (cbn; rewrite ?Htxn; split_path); cbn; left; reflexivity.
Qed.

Lemma username_free (u : string) (l : list User.t) :
  existsb (has_username u) l = false ->
  filter (has_username u) l = [] /\ ~ In u (map User.username l).
Proof.
  intro H. split.
  - apply filter_miss. intros x Hx.
    destruct (has_username u x) eqn:E; [|reflexivity].
    assert (Hex : existsb (has_username u) l = true)
      by (apply existsb_exists; eauto).
    congruence.
  - intro Hin. apply in_map_iff in Hin. destruct Hin as (x & <- & Hx).
    assert (Hex : existsb (has_username (User.username x)) l = true).
    { apply existsb_exists. exists x. split; [exact Hx|].
      unfold has_username. apply String.eqb_refl. }
    congruence.
Qed.

(** X1. Registration keeps every stored username a lowercased one and the
    usernames distinct, whatever the request and whatever the store does. *)
Theorem register_keeps_usernames (w : world) (body : value) :
  txn w = None ->
  usernames_kept (committed w) ->
  usernames_kept (committed (snd (post_auth_register body w))).
Proof.
  intros Htxn [Hnodup Hlower].
  destruct (register_effect w body Htxn) as [-> | (u & _ & Hfree & ->)];
    [now split|].
  unfold username_taken in Hfree. apply username_free in Hfree.
  destruct Hfree as [_ Hnew].
  unfold usernames_kept, add, registered. cbn. split.
  - rewrite map_app. cbn.
    rewrite <- app_nil_r with (l := [lower u]).
    apply Permutation_NoDup with (l := lower u :: map User.username (users (committed w))).
    + rewrite app_nil_r. apply Permutation_cons_append.
    + now constructor.
  - apply Forall_app. split; [exact Hlower|].
    constructor; [now exists u | constructor].
Qed.

(** What a first registration does when the store answers. *)
Lemma register_run (w : world) (body : value) (u : string) :
  quiet w ->
  txn w = None ->
  field "username" body = Str u ->
  u <> "" ->
  truthy (field "password" body) = true ->
  username_taken (lower u) (committed w) = false ->
  post_auth_register body w
  = (Ok {| status := 201;
           json := Obj [("success", Bool true);
                        ("user", Obj [("id", Num (next w + 1));
                                      ("username", Str (lower u))])] |},
     log Release
       (set_txn None
          (set_committed
             (add (committed w)
                (registered (next w + 1) (lower u) (field "password" body)))
             (log (Client COMMIT)
                (tick (log (Client insert_user)
                   (tick (log (Client select_user_id)
                      (set_txn (Some empty)
                         (log (Client BEGIN) (log Connect w))))))))))).
Proof.
  intros Hq Htxn Hu Hne Hp Hfree.
  unfold username_taken in Hfree.
  destruct (username_free _ _ Hfree) as [Hnone _].
  unfold post_auth_register. rewrite Hu, Hp, (truthy_str u Hne).
  unfold_handler. rewrite !pg_text_str.
  repeat progress (cbn; rewrite ?Hq, ?Htxn, ?add_empty_r, ?Hnone, ?Hfree).
  unfold registered. rewrite add_empty_l. reflexivity.
Qed.

Lemma found_registered (t : tables) (id : Z) (u : string) (p : value) :
  username_taken u t = false ->
  filter (has_username u) (users (add t (registered id u p)))
  = [User.mk id u (pg_text p)].
Proof.
  intro Hfree. unfold username_taken in Hfree.
  destruct (username_free _ _ Hfree) as [Hnone _].
  unfold add, registered. cbn. rewrite filter_app, Hnone. cbn.
  unfold has_username. cbn. now rewrite String.eqb_refl.
Qed.

(** A registration that finds the username: the answer and the committed
    tables, when the store answers. *)
Lemma taken_run (w : world) (body : value) (u : string) (row : User.t)
    (rest : list User.t) :
  quiet w ->
  txn w = None ->
  field "username" body = Str u ->
  u <> "" ->
  truthy (field "password" body) = true ->
  filter (has_username (lower u)) (users (committed w)) = row :: rest ->
  fst (post_auth_register body w)
  = Ok {| status := 400; json := failure "Username já está em uso" |}
  /\ committed (snd (post_auth_register body w)) = committed w.
Proof.
  intros Hq Htxn Hu Hne Hp Hfound.
  unfold post_auth_register. rewrite Hu, Hp, (truthy_str u Hne).
  unfold_handler. rewrite !pg_text_str.
  repeat progress (cbn; rewrite ?Hq, ?Htxn, ?add_empty_r, ?Hfound).
  split; reflexivity.
Qed.

(** A login that finds the username, when the store answers. *)
Lemma found_run (w : world) (body : value) (u : string) (row : User.t)
    (rest : list User.t) :
  quiet w ->
  field "username" body = Str u ->
  u <> "" ->
  truthy (field "password" body) = true ->
  filter (has_username (lower u)) (users (visible w)) = row :: rest ->
  fst (post_auth_login body w)
  = if strict_eq (field "password" body) (Str (User.password row))
    then Ok {| status := 200;
               json := Obj [("success", Bool true);
                            ("message", Str "Login bem-sucedido");
                            ("user", Obj [("id", Num (User.id row));
                                          ("username", Str (User.username row))])] |}
    else Ok {| status := 401; json := failure "Senha incorreta" |}.
Proof.
  intros Hq Hu Hne Hp Hfound.
  unfold post_auth_login. rewrite Hu, Hp, (truthy_str u Hne).
  unfold try_catch, bind, defined, toLowerCase, respond, ret. cbn [negb orb].
  rewrite (pool_query_quiet _ _ _ Hq). cbn [run]. unfold param. cbn [nth Nat.sub].
  rewrite pg_text_str, Hfound. cbn.
  now destruct (strict_eq (field "password" body) (Str (User.password row))).
Qed.

(** The world a first registration leaves, as far as a later request sees
    it. *)
Lemma registered_world (w : world) (body : value) (u : string) :
  quiet w ->
  txn w = None ->
  field "username" body = Str u ->
  u <> "" ->
  truthy (field "password" body) = true ->
  username_taken (lower u) (committed w) = false ->
  let w' := snd (post_auth_register body w) in
  quiet w' /\ txn w' = None
  /\ committed w'
     = add (committed w) (registered (next w + 1) (lower u) (field "password" body)).
Proof.
  intros Hq Htxn Hu Hne Hp Hfree w'. subst w'.
  rewrite (register_run w body u Hq Htxn Hu Hne Hp Hfree).
  repeat split. exact Hq.
Qed.

(** X2. After a registration that succeeds, a second one whose username
    lowercases to the same string is refused with 400 and writes nothing. *)
Theorem register_twice (w : world) (body again : value) (u u' : string) :
  quiet w ->
  txn w = None ->
  field "username" body = Str u ->
  u <> "" ->
  truthy (field "password" body) = true ->
  username_taken (lower u) (committed w) = false ->
  field "username" again = Str u' ->
  u' <> "" ->
  lower u' = lower u ->
  truthy (field "password" again) = true ->
  let first := post_auth_register body w in
  let second := post_auth_register again (snd first) in
  fst first
  = Ok {| status := 201;
          json := Obj [("success", Bool true);
                       ("user", Obj [("id", Num (next w + 1));
                                     ("username", Str (lower u))])] |}
  /\ users (committed (snd first))
     = (users (committed w)
          ++ [User.mk (next w + 1) (lower u) (pg_text (field "password" body))])%list
  /\ fst second
     = Ok {| status := 400; json := failure "Username já está em uso" |}
  /\ committed (snd second) = committed (snd first).
Proof.
  intros Hq Htxn Hu Hne Hp Hfree Hu' Hne' Hsame Hp' first second.
  destruct (registered_world w body u Hq Htxn Hu Hne Hp Hfree)
    as (Hq1 & Htxn1 & Hc1).
  fold first in Hq1, Htxn1, Hc1.
  assert (Hfound :
    filter (has_username (lower u')) (users (committed (snd first)))
    = [User.mk (next w + 1) (lower u) (pg_text (field "password" body))]).
  { rewrite Hc1, Hsame. now apply found_registered. }
  destruct (taken_run (snd first) again u' _ _ Hq1 Htxn1 Hu' Hne' Hp' Hfound)
    as [Hans Hsame2].
  split; [|split; [|split]].
  - subst first. now rewrite (register_run w body u Hq Htxn Hu Hne Hp Hfree).
  - rewrite Hc1. reflexivity.
  - exact Hans.
  - exact Hsame2.
Qed.

(** X3. A user who registered with a string password logs in with any
    username that lowercases to the same string and that password, and gets
    back the id and the lowercased username of the registration; any other
    password is answered with 401. *)
Theorem register_then_login
    (w : world) (body credentials : value) (u u' password : string) :
  quiet w ->
  txn w = None ->
  field "username" body = Str u ->
  u <> "" ->
  field "password" body = Str password ->
  password <> "" ->
  username_taken (lower u) (committed w) = false ->
  field "username" credentials = Str u' ->
  u' <> "" ->
  lower u' = lower u ->
  truthy (field "password" credentials) = true ->
  let answer :=
    fst (post_auth_login credentials (snd (post_auth_register body w))) in
  (field "password" credentials = Str password ->
   answer
   = Ok {| status := 200;
           json := Obj [("success", Bool true);
                        ("message", Str "Login bem-sucedido");
                        ("user", Obj [("id", Num (next w + 1));
                                      ("username", Str (lower u))])] |})
  /\ (field "password" credentials <> Str password ->
      answer = Ok {| status := 401; json := failure "Senha incorreta" |}).
Proof.
  intros Hq Htxn Hu Hne Hp Hpne Hfree Hu' Hne' Hsame Hp' answer.
  assert (Hpt : truthy (field "password" body) = true)
    by (rewrite Hp; now apply truthy_str).
  destruct (registered_world w body u Hq Htxn Hu Hne Hpt Hfree)
    as (Hq1 & Htxn1 & Hc1).
  assert (Hfound :
    filter (has_username (lower u'))
      (users (visible (snd (post_auth_register body w))))
    = [User.mk (next w + 1) (lower u) password]).
  { rewrite (visible_clean _ Htxn1), Hc1, Hsame,
      (found_registered _ _ _ _ Hfree), Hp, pg_text_str.
    reflexivity. }
  pose proof (found_run _ credentials u' _ _ Hq1 Hu' Hne' Hp' Hfound) as Hrun.
  fold answer in Hrun. cbn [User.password User.id User.username] in Hrun.
  split; intro Hc.
  - rewrite (proj2 (strict_eq_str _ _) Hc) in Hrun. exact Hrun.
  - destruct (strict_eq (field "password" credentials) (Str password)) eqn:E.
    + apply strict_eq_str in E. contradiction.
    + exact Hrun.
Qed.

(** X4. A username that is present and is not a string: registration rolls
    back and answers 500; login answers 500 without asking the store. *)
Theorem username_not_a_string (w : world) (body : value) :
  truthy (field "username" body) = true ->
  (forall s, field "username" body <> Str s) ->
  truthy (field "password" body) = true ->
  post_auth_login body w
  = (Ok {| status := 500; json := failure "Erro interno ao processar login" |}, w)
  /\ (quiet w ->
      fst (post_auth_register body w)
      = Ok {| status := 500; json := failure "Erro ao registrar usuário" |}
      /\ committed (snd (post_auth_register body w)) = committed w
      /\ trace (snd (post_auth_register body w))
         = (trace w ++ [Connect; Client BEGIN; Client ROLLBACK; Release])%list).
Proof.
  intros Hu Hstr Hp.
  unfold post_auth_login, post_auth_register. rewrite Hu, Hp.
  destruct (field "username" body) as [| | | |s| |];
    try discriminate;
    try (exfalso; now apply (Hstr s)).
  all: cbn in Hu; rewrite ?Hu.
  all: split; [reflexivity|]; intro Hq; unfold_handler;
    destruct (txn w) eqn:Htxn;
    repeat progress (cbn; rewrite ?Hq, ?Htxn);
    rewrite <- ?app_assoc; repeat split.
Qed.

(** ** Validation *)

(** X5. Login, room creation, sending a message and joining a room answer
    400 exactly when a required field is missing (falsy), and then without
    any store interaction; so does plant creation, whose required fields are
    one of the two names and both coordinates. *)
Theorem bad_request_means_missing_field
    (w : world) (roomId : string) (body : value) :
  refuses_exactly (post_auth_login body)
    (negb (truthy (field "username" body)) || negb (truthy (field "password" body))) w
  /\ refuses_exactly (post_rooms body)
       (negb (truthy (field "name" body)) || negb (truthy (field "creator_id" body))) w
  /\ refuses_exactly (post_room_messages roomId body)
       (negb (truthy (field "sender_id" body)) || negb (truthy (field "content" body))) w
  /\ refuses_exactly (post_room_join roomId body)
       (negb (truthy (field "user_id" body))) w
  /\ refuses_exactly (post_plants body)
       (negb (truthy (field "nome_cientifico" body))
          && negb (truthy (field "nome_popular" body))
        || (negb (truthy (field "latitude" body))
            || negb (truthy (field "longitude" body)))) w.
Proof.
  repeat split.
  - intro Hm. unfold post_auth_login. rewrite Hm. eexists; reflexivity.
  - intro Hm. unfold post_auth_login. rewrite Hm. intros r.
    destruct (txn w) eqn:Htxn; destruct (field "username" body);
      unfold_handler; all_paths Htxn;
      intro Hr; inversion Hr; cbn; discriminate.
  - intro Hm. unfold post_rooms. rewrite Hm. eexists; reflexivity.
  - intro Hm. unfold post_rooms. rewrite Hm. intros r.
    destruct (txn w) eqn:Htxn; unfold_handler; all_paths Htxn;
      intro Hr; inversion Hr; cbn; discriminate.
  - intro Hm. unfold post_room_messages. rewrite Hm. eexists; reflexivity.
  - intro Hm. unfold post_room_messages. rewrite Hm. intros r.
    destruct (txn w) eqn:Htxn; unfold_handler; all_paths Htxn;
      intro Hr; inversion Hr; cbn; discriminate.
  - intro Hm. unfold post_room_join. rewrite Hm. eexists; reflexivity.
  - intro Hm. unfold post_room_join. rewrite Hm. intros r.
    destruct (txn w) eqn:Htxn; unfold_handler; all_paths Htxn;
      intro Hr; inversion Hr; cbn; discriminate.
  - intro Hm. unfold post_plants.
    destruct (negb (truthy (field "nome_cientifico" body))
              && negb (truthy (field "nome_popular" body)));
      [eexists; reflexivity|].
    cbn in Hm. rewrite Hm. eexists; reflexivity.
  - intro Hm. unfold post_plants.
    apply orb_false_elim in Hm. destruct Hm as [-> ->]. intros r.
    destruct (txn w) eqn:Htxn; unfold_handler; all_paths Htxn;
      intro Hr; inversion Hr; cbn; discriminate.
Qed.

(** ** Answers and failures of the store *)

(** X6. The two handlers that work in a transaction leave a request
    unanswered only when the connection cannot be had, or when the
    [ROLLBACK] after a failure fails too; the connection, once had, is still
    released, and nothing is committed. *)
Theorem unanswered_only_without_store (w : world) (body : value) (e : exn) :
  (fst (post_auth_register body w) = Throw e ->
   committed (snd (post_auth_register body w)) = committed w
   /\ (trace (snd (post_auth_register body w)) = (trace w ++ [Connect])%list
       \/ rollback_last (trace (snd (post_auth_register body w))) = true))
  /\ (fst (post_rooms body w) = Throw e ->
      committed (snd (post_rooms body w)) = committed w
      /\ (trace (snd (post_rooms body w)) = (trace w ++ [Connect])%list
          \/ rollback_last (trace (snd (post_rooms body w))) = true)).
Proof.
  split.
  - unfold post_auth_register.
    destruct (negb (truthy (field "username" body))
              || negb (truthy (field "password" body))); [discriminate|].
    destruct (txn w) eqn:Htxn;
      destruct (field "username" body); unfold_handler;
      all_paths Htxn; try discriminate; intros _;
      (split; [reflexivity|]);
      try (left; reflexivity);
      right; unfold rollback_last; rewrite !rev_app_distr; reflexivity.
  - unfold post_rooms.
    destruct (negb (truthy (field "name" body))
              || negb (truthy (field "creator_id" body))); [discriminate|].
    destruct (txn w) eqn:Htxn; unfold_handler;
      all_paths Htxn; try discriminate; intros _;
      (split; [reflexivity|]);
      try (left; reflexivity);
      right; unfold rollback_last; rewrite !rev_app_distr; reflexivity.
Qed.

(** X7. The handlers that ask the pool directly always answer: a failure of
    the store becomes a response, never an exception. *)
Theorem pool_handlers_always_answer
    (w : world) (roomId : string) (body query : value) :
  (exists r, fst (post_auth_login body w) = Ok r)
  /\ (exists r, fst (post_plants body w) = Ok r)
  /\ (exists r, fst (get_room_messages roomId query w) = Ok r)
  /\ (exists r, fst (post_room_messages roomId body w) = Ok r)
  /\ (exists r, fst (post_room_join roomId body w) = Ok r).
Proof.
  repeat split.
  - unfold post_auth_login.
    destruct (negb (truthy (field "username" body))
              || negb (truthy (field "password" body))); [eexists; reflexivity|].
    destruct (txn w) eqn:Htxn; destruct (field "username" body);
      unfold_handler; all_paths Htxn; eexists; reflexivity.
  - unfold post_plants.
    destruct (negb (truthy (field "nome_cientifico" body))
              && negb (truthy (field "nome_popular" body))); [eexists; reflexivity|].
    destruct (negb (truthy (field "latitude" body))
              || negb (truthy (field "longitude" body))); [eexists; reflexivity|].
    destruct (txn w) eqn:Htxn; unfold_handler; all_paths Htxn;
      eexists; reflexivity.
  - unfold get_room_messages.
    destruct (txn w) eqn:Htxn; unfold_handler; all_paths Htxn;
      eexists; reflexivity.
  - unfold post_room_messages.
    destruct (negb (truthy (field "sender_id" body))
              || negb (truthy (field "content" body))); [eexists; reflexivity|].
    destruct (txn w) eqn:Htxn; unfold_handler; all_paths Htxn;
      eexists; reflexivity.
  - unfold post_room_join.
    destruct (negb (truthy (field "user_id" body))); [eexists; reflexivity|].
    destruct (txn w) eqn:Htxn; unfold_handler; all_paths Htxn;
      eexists; reflexivity.
Qed.

(** X8. Login and the listing of messages never change the tables, whatever
    the request and whatever the store does. *)
Theorem reads_never_write
    (w : world) (roomId : string) (body query : value) :
  committed (snd (post_auth_login body w)) = committed w
  /\ committed (snd (get_room_messages roomId query w)) = committed w.
Proof.
  split.
  - unfold post_auth_login.
    destruct (negb (truthy (field "username" body))
              || negb (truthy (field "password" body))); [reflexivity|].
    destruct (txn w) eqn:Htxn; destruct (field "username" body);
      unfold_handler; all_paths Htxn; rewrite ?add_empty_r; reflexivity.
  - unfold get_room_messages.
    destruct (txn w) eqn:Htxn; unfold_handler; all_paths Htxn;
      rewrite ?add_empty_r; reflexivity.
Qed.




(** ** Rooms and messages *)

(** What a send by a member does when the store answers. *)
Lemma send_run (w : world) (roomId : string) (body : value) (r u : Z) :
  quiet w ->
  truthy (field "sender_id" body) = true ->
  truthy (field "content" body) = true ->
  pg_int (Str roomId) = Some r ->
  pg_int (field "sender_id" body) = Some u ->
  In (r, u) (room_members (visible w)) ->
  let row :=
    Message.mk (next w + 1) r u (text_column (field "content" body)) (next w + 1) in
  fst (post_room_messages roomId body w)
  = Ok {| status := 201; json := Message.to_js row |}
  /\ visible (snd (post_room_messages roomId body w))
     = add (visible w) (message_row row)
  /\ quiet (snd (post_room_messages roomId body w)).
Proof.
  intros Hq Hs Hc Hr Hu Hm row. subst row.
  destruct (members_found r u _ Hm) as (rest & Hf).
  set (checked := tick (store empty (log (Pool select_room_member) w))).
  assert (Hq' : quiet checked) by now apply quiet_stored.
  unfold post_room_messages. rewrite Hs, Hc.
  cbn [negb orb]. unfold try_catch, bind, respond, ret.
  rewrite (pool_query_quiet _ _ _ Hq). cbn [run]. unfold param. cbn [nth Nat.sub].
  rewrite Hr, Hu, Hf. fold checked.
  cbn [selected rowCount List.length map Nat.eqb].
  rewrite (pool_query_quiet _ _ _ Hq'). cbn [run].
  unfold message_of_params, param. cbn [nth Nat.sub].
  rewrite Hr, Hu.
  unfold checked. rewrite next_stored. cbn [fst snd index rows inserted nth].
  rewrite !visible_stored, add_empty_r.
  split; [reflexivity|]. split; [reflexivity|].
  now apply quiet_stored, quiet_stored.
Qed.

(** What a listing answers when the store does. *)
Lemma list_run (w : world) (roomId : string) (query : value) (r : Z) (n : nat) :
  quiet w ->
  pg_int (Str roomId) = Some r ->
  pg_int (default (Num 50) (field "limit" query)) = Some (Z.of_nat n) ->
  fst (get_room_messages roomId query w)
  = Ok {| status := 200;
          json := Arr (rev (map Message.to_js
                              (firstn n (newest_first
                                           (filter (in_room r)
                                                   (messages (visible w))))))) |}.
Proof.
  intros Hq Hr Hn.
  unfold get_room_messages, try_catch, bind, respond, ret.
  rewrite (pool_query_quiet _ _ _ Hq). cbn [run]. unfold param. cbn [nth Nat.sub].
  rewrite Hr, Hn.
  destruct (Z.ltb_spec (Z.of_nat n) 0) as [Hneg | _]; [lia|].
  cbn [fst selected rows]. now rewrite Nat2Z.id.
Qed.

Lemma newest_first_snoc (l : list Message.t) (m : Message.t) :
  (forall x, In x l -> Message.timestamp x < Message.timestamp m) ->
  newest_first (l ++ [m]) = m :: newest_first l.
Proof.
  induction l as [|a l IH]; intro Hnew; [reflexivity|].
  cbn. rewrite IH by (intros x Hx; apply Hnew; now right).
  cbn. destruct (Z.ltb_spec (Message.timestamp m) (Message.timestamp a)) as [Hlt|_];
    [|reflexivity].
  specialize (Hnew a (or_introl eq_refl)). lia.
Qed.

(** X10. A message a member sends is the last of the next listing of the
    room, for any limit of at least one, when the store's clock is ahead of
    the messages the room already has.  The members and the messages are
    those the pool's connection sees, the committed ones when no transaction
    is open on it. *)
Theorem sent_message_listed_last
    (w : world) (roomId : string) (body query : value) (r u : Z) (k : nat) :
  quiet w ->
  truthy (field "sender_id" body) = true ->
  truthy (field "content" body) = true ->
  pg_int (Str roomId) = Some r ->
  pg_int (field "sender_id" body) = Some u ->
  In (r, u) (room_members (visible w)) ->
  pg_int (default (Num 50) (field "limit" query)) = Some (Z.of_nat (S k)) ->
  (forall m, In m (messages (visible w)) -> in_room r m = true ->
             Message.timestamp m < next w + 1) ->
  let sent := post_room_messages roomId body w in
  exists row earlier,
    fst sent = Ok {| status := 201; json := row |}
    /\ fst (get_room_messages roomId query (snd sent))
       = Ok {| status := 200; json := Arr (earlier ++ [row]) |}.
Proof.
  intros Hq Hs Hc Hr Hu Hm Hn Hclock sent.
  destruct (send_run w roomId body r u Hq Hs Hc Hr Hu Hm) as (Hans & Hsee & Hq').
  fold sent in Hans, Hsee, Hq'.
  set (row := Message.mk (next w + 1) r u (text_column (field "content" body))
                         (next w + 1)) in *.
  set (room := filter (in_room r) (messages (visible w))).
  exists (Message.to_js row), (rev (map Message.to_js (firstn k (newest_first room)))).
  split; [exact Hans|].
  rewrite (list_run (snd sent) roomId query r (S k) Hq' Hr Hn), Hsee.
  unfold add, message_row. cbn. rewrite filter_app. cbn.
  unfold in_room at 2. cbn. rewrite Z.eqb_refl.
  fold room. rewrite newest_first_snoc.
  - reflexivity.
  - intros x Hx. apply filter_In in Hx. destruct Hx as [Hin Hroom].
    exact (Hclock x Hin Hroom).
Qed.

Lemma room_members_add (a b : tables) :
  room_members (add a b) = (room_members a ++ room_members b)%list.
Proof. reflexivity. Qed.

(** What a room creation does when the store answers. *)
Lemma rooms_run (w : world) (body : value) (c : Z) :
  quiet w ->
  txn w = None ->
  truthy (field "name" body) = true ->
  truthy (field "creator_id" body) = true ->
  pg_int (field "creator_id" body) = Some c ->
  membership_taken (next w) c (committed w) = false ->
  let room :=
    Room.mk (next w) (text_column (field "name" body))
            (text_column (field "description" body)) c (next w) in
  fst (post_rooms body w) = Ok {| status := 201; json := Room.to_js room |}
  /\ committed (snd (post_rooms body w)) = add (committed w) (room_with_creator room)
  /\ txn (snd (post_rooms body w)) = None
  /\ quiet (snd (post_rooms body w)).
Proof.
  intros Hq Htxn Hname Hcreator Hc Hfree room. subst room.
  unfold membership_taken in Hfree.
  unfold post_rooms. rewrite Hname, Hcreator.
  unfold_handler.
  repeat progress (cbn; rewrite ?Hq, ?Htxn, ?Hc, ?pg_int_num).
  rewrite !room_members_add. cbn [room_members empty app].
  rewrite app_nil_r, Hfree.
  repeat progress (cbn; rewrite ?Hq).
  unfold add, room_with_creator. cbn. rewrite !app_nil_r.
  repeat split. exact Hq.
Qed.

(** X11. The creator of a room is a member of it from the start: a message
    the creator sends to the new room right after is accepted. *)
Theorem creator_can_post
    (w : world) (roomId : string) (body msg : value) (c : Z) :
  quiet w ->
  txn w = None ->
  truthy (field "name" body) = true ->
  truthy (field "creator_id" body) = true ->
  pg_int (field "creator_id" body) = Some c ->
  membership_taken (next w) c (committed w) = false ->
  pg_int (Str roomId) = Some (next w) ->
  field "sender_id" msg = field "creator_id" body ->
  truthy (field "content" msg) = true ->
  let created := post_rooms body w in
  exists room row,
    fst created = Ok {| status := 201; json := Room.to_js room |}
    /\ Room.creator_id room = c
    /\ In (Room.id room, c) (room_members (committed (snd created)))
    /\ fst (post_room_messages roomId msg (snd created))
       = Ok {| status := 201; json := Message.to_js row |}
    /\ Message.room_id row = Room.id room
    /\ Message.sender_id row = c.
Proof.
  intros Hq Htxn Hname Hcreator Hc Hfree Hroom Hsender Hcontent created.
  destruct (rooms_run w body c Hq Htxn Hname Hcreator Hc Hfree)
    as (Hans & Hcom & Htxn' & Hq').
  fold created in Hans, Hcom, Htxn', Hq'.
  assert (Hmember : In (next w, c) (room_members (committed (snd created)))).
  { rewrite Hcom. unfold add, room_with_creator. cbn.
    apply in_or_app. right. now left. }
  assert (Hsees : In (next w, c) (room_members (visible (snd created))))
    by now rewrite (visible_clean _ Htxn').
  assert (Hs : truthy (field "sender_id" msg) = true) by now rewrite Hsender.
  assert (Hu : pg_int (field "sender_id" msg) = Some c) by now rewrite Hsender.
  destruct (send_run (snd created) roomId msg (next w) c Hq' Hs Hcontent Hroom Hu Hsees)
    as (Hsent & _ & _).
  eexists. eexists. split; [exact Hans|]. split; [reflexivity|].
  split; [exact Hmember|]. split; [exact Hsent|]. split; reflexivity.
Qed.

(** X12. No handler stores a message from someone who is not a member of the
    room: sending and joining keep every stored message with a sender who
    belongs to its room, whatever the request and whatever the store
    does. *)
Theorem senders_stay_members (w : world) (roomId : string) (body : value) :
  senders_are_members (committed w) ->
  senders_are_members (committed (snd (post_room_messages roomId body w)))
  /\ senders_are_members (committed (snd (post_room_join roomId body w))).
Proof.
  intro Hinv. split.
  - unfold post_room_messages.
    destruct (negb (truthy (field "sender_id" body))
              || negb (truthy (field "content" body))); [exact Hinv|].
    destruct (txn w) eqn:Htxn; unfold_handler; all_paths Htxn;
      rewrite ?add_empty_r; try exact Hinv.
    match goal with
    | H : filter (is_member ?r ?u) _ = ?y :: _ |- _ =>
        assert (Hm : In y (filter (is_member r u) (room_members (committed w))))
          by (rewrite H; now left);
        apply filter_In in Hm; destruct Hm as [Hm Hy];
        apply is_member_true in Hy; subst y
    end.
    unfold senders_are_members, add. cbn. intros m Hin.
    rewrite app_nil_r.
    apply in_app_or in Hin. destruct Hin as [Hin | [<- | []]];
      [now apply Hinv | exact Hm].
  - unfold post_room_join.
    destruct (negb (truthy (field "user_id" body))); [exact Hinv|].
    destruct (txn w) eqn:Htxn; unfold_handler; all_paths Htxn;
      rewrite ?add_empty_r; try exact Hinv.
    unfold senders_are_members, add. cbn. intros m Hin.
    rewrite app_nil_r in Hin. apply in_or_app. left. now apply Hinv.
Qed.

(** ** The listing of plants *)

Lemma lookup_assign_same (k : string) (v : value) (props : list (string * value)) :
  lookup k (Plantas.assign k v props) = v.
Proof.
  induction props as [|[k' v'] rest IH]; cbn.
  - now rewrite String.eqb_refl.
  - destruct (String.eqb_spec k k') as [<- | Hne]; cbn.
    + now rewrite String.eqb_refl.
    + destruct (String.eqb_spec k k'); [contradiction | exact IH].
Qed.

Lemma lookup_assign_other (k k' : string) (v : value)
    (props : list (string * value)) :
  k' <> k -> lookup k' (Plantas.assign k v props) = lookup k' props.
Proof.
  intro Hne. induction props as [|[k0 v0] rest IH]; cbn.
  - destruct (String.eqb_spec k' k); [contradiction | reflexivity].
  - destruct (String.eqb_spec k k0) as [<- | Hk]; cbn.
    + destruct (String.eqb_spec k' k); [contradiction | reflexivity].
    + destruct (String.eqb_spec k' k0); [reflexivity | exact IH].
Qed.

(** X13. The rows of the plant listing come back in the same number and
    order, each with [tipo: 'planta'] and [count: 1], also when the row had
    such a column, and with every other column as the store returned it. *)
Theorem plantas_rows_decorated (rows : list value) :
  List.length (Plantas.format rows) = List.length rows
  /\ (forall i, nth_error (Plantas.format rows) i
                = option_map Plantas.decorate (nth_error rows i))
  /\ (forall row,
        field "tipo" (Plantas.decorate row) = Str "planta"
        /\ field "count" (Plantas.decorate row) = Num 1
        /\ (forall k, k <> "tipo" -> k <> "count" ->
                      field k (Plantas.decorate row)
                      = lookup k (Plantas.own_props row))).
Proof.
  unfold Plantas.format. split; [apply length_map|].
  split; [intro i; apply nth_error_map|].
  intro row. unfold Plantas.decorate, field. repeat split.
  - rewrite lookup_assign_other by discriminate. apply lookup_assign_same.
  - apply lookup_assign_same.
  - intros k Htipo Hcount. now rewrite !lookup_assign_other.
Qed.


(** ** More on what is refused *)

(** X16. Registration answers 400 in two cases only: a field is missing,
    and then the store is not asked; or the username, lowercased, is one the
    connection already sees. *)
Theorem register_refusals (w : world) (body : value) (r : response) :
  (negb (truthy (field "username" body)) || negb (truthy (field "password" body))
   = true ->
   post_auth_register body w
   = (Ok {| status := 400; json := failure "Username e senha são obrigatórios" |},
      w))
  /\ (negb (truthy (field "username" body)) || negb (truthy (field "password" body))
      = false ->
      fst (post_auth_register body w) = Ok r ->
      status r = 400 ->
      exists u,
        field "username" body = Str u
        /\ username_taken (lower u) (visible w) = true).
Proof.
  split; intro Hm; unfold post_auth_register; rewrite Hm; [reflexivity|].
  unfold username_taken, visible.
  destruct (txn w) eqn:Htxn;
    destruct (field "username" body); unfold_handler;
    repeat (repeat progress (cbn; rewrite ?pg_text_str, ?Htxn, ?add_empty_r);
            split_path);
    cbn; rewrite ?Htxn; cbn;
    intros Hr Hs; inversion Hr; subst r; try discriminate Hs;
    eexists; (split; [reflexivity|]);
    match goal with
    | H : filter ?p ?l = ?y :: _ |- existsb ?p ?l = true =>
        assert (Hy : In y (filter p l)) by (rewrite H; now left);
        apply filter_In in Hy; apply existsb_exists; exists y; exact Hy
    end.
Qed.

End Further.

(* ================================================================== *)
(** * The handlers at work *)
(* ================================================================== *)

Import Sample.

#[local] Existing Instance decimal_driver.
#[local] Existing Instance ascii_engine.

Lemma serving_quiet (t : tables) : quiet (serving t).
Proof. intro n. reflexivity. Qed.

Lemma register_taken_witness :
  committed (snd (post_auth_register ana_again (serving forum))) = forum /\
  exists text,
    fst (post_auth_register ana_again (serving forum))
    = Ok {| status := 400; json := failure text |}.
Proof.
  destruct (register_taken (pg := decimal_driver) (js := ascii_engine)
              (serving forum) ana_again "Ana" ana
              eq_refl (or_introl eq_refl) eq_refl) as [Hsame Hstatus].
  split; [exact Hsame | exact (Hstatus (serving_quiet forum))].
Defined.

Lemma taken_username_skips_rollback_witness :
  trace (snd (post_auth_register ana_again (serving forum)))
  = [Connect; Client BEGIN; Client select_user_id; Release]
  /\ disciplined [Connect; Client BEGIN; Client select_user_id; Release] = false
  /\ txn (snd (post_auth_register ana_again (serving forum))) <> None.
Proof.
  apply (taken_username_skips_rollback (pg := decimal_driver) (js := ascii_engine)
           (serving forum) ana_again "Ana" ana).
  - apply serving_quiet.
  - reflexivity.
  - discriminate.
  - reflexivity.
  - left. reflexivity.
  - reflexivity.
Defined.

(** What the open transaction does to the next request on the pool: a join
    after a refused registration is answered as a success and seen by the
    pool's connection, and is not committed. *)
Example join_after_taken_username :
  let stuck := snd (post_auth_register ana_again (serving forum)) in
  fst (post_room_join "7" bia_joins stuck) = joined
  /\ In (7, 2) (room_members (visible (snd (post_room_join "7" bia_joins stuck))))
  /\ committed (snd (post_room_join "7" bia_joins stuck)) = forum.
Proof.
  split; [reflexivity|]. split; [|reflexivity].
  right. left. reflexivity.
Qed.

Lemma login_outcomes_witness :
  fst (post_auth_login ana_logs_in (serving forum))
  = Ok {| status := 200;
          json := Obj [("success", Bool true);
                       ("message", Str "Login bem-sucedido");
                       ("user", Obj [("id", Num 1); ("username", Str "ana")])] |}.
Proof.
  refine (proj2 (proj2 (login_outcomes (pg := decimal_driver) (js := ascii_engine)
                           (serving forum) ana_logs_in "ANA"
                           (serving_quiet forum) eq_refl _ eq_refl))
            ana [] eq_refl eq_refl).
  discriminate.
Defined.

Lemma plant_creation_witness :
  fst (post_plants ipe (serving forum))
  = Ok {| status := 201;
          json := Obj [("success", Bool true);
                       ("plant", Plant.to_js ipe_row);
                       ("message", Str "Planta cadastrada com sucesso")] |}
  /\ committed (snd (post_plants ipe (serving forum))) = add forum (plant_row ipe_row)
  /\ kept_or_null pg_date
       (field "data_plantio" ipe) (field "data_plantio" (Plant.to_js ipe_row))
  /\ kept_or_null (fun v => option_map Num (pg_int v))
       (field "usuario_id" ipe) (field "usuario_id" (Plant.to_js ipe_row)).
Proof.
  destruct (proj2 (plant_creation (pg := decimal_driver)
                     (serving forum) ipe)
              ipe_row (or_intror eq_refl) eq_refl eq_refl (serving_quiet forum)
              eq_refl)
    as (Hanswer & _ & Hcommitted & _ & _ & _ & Hdate & _ & Huser).
  split; [exact Hanswer|]. split; [exact (Hcommitted eq_refl)|].
  split; [exact Hdate | exact Huser].
Defined.

(** C3 as the specification words it fails twice: a coordinate that is
    present and is [0] is refused, and an optional field sent as [0] comes
    back as [null]. *)
Lemma plant_creation_counterexample :
  (exists answer,
     fst (post_plants (Obj [("nome_popular", Str "Ipe"); ("latitude", Num 0);
                            ("longitude", Num (-35))]) (serving forum))
     = Ok answer
     /\ status answer <> 201)
  /\ (exists plant,
        fst (post_plants (Obj [("nome_popular", Str "Ipe"); ("latitude", Num (-8));
                               ("longitude", Num (-35)); ("usuario_id", Num 0)])
               (serving forum))
        = Ok {| status := 201;
                json := Obj [("success", Bool true);
                             ("plant", plant);
                             ("message", Str "Planta cadastrada com sucesso")] |}
        /\ field "usuario_id" plant = Null
        /\ field "usuario_id" plant <> Num 0).
Proof.
  split.
  - eexists. split; [reflexivity | discriminate].
  - eexists. split; [reflexivity | split; [reflexivity | discriminate]].
Qed.

Lemma plant_zero_coordinate_witness :
  post_plants ipe_at_zero (serving forum)
  = (Ok {| status := 400;
           json := failure "Coordenadas geográficas são obrigatórias" |},
     serving forum).
Proof.
  apply (plant_zero_coordinate (serving forum) ipe_at_zero).
  - right. reflexivity.
  - left. left. reflexivity.
Defined.

(** C10 as the specification words it fails when no name is given: the
    latitude is [0], and the answer is the one about the names. *)
Lemma plant_zero_coordinate_counterexample :
  field "latitude" (Obj [("latitude", Num 0)]) = Num 0
  /\ fst (post_plants (Obj [("latitude", Num 0)]) (serving forum))
     = Ok {| status := 400;
             json := failure "Pelo menos o nome científico ou popular deve ser fornecido" |}
  /\ fst (post_plants (Obj [("latitude", Num 0)]) (serving forum))
     <> Ok {| status := 400;
              json := failure "Coordenadas geográficas são obrigatórias" |}.
Proof.
  repeat split. discriminate.
Qed.

Lemma especies_text_ignores_values_witness :
  fst (Especies.build (Str "ipe") Undefined (Str "3"))
  = fst (Especies.build (Str "x' OR 1=1 --") Null (Num 7))
  /\ snd (Especies.build (Str "x' OR 1=1 --") Null (Num 7))
     = [Str "%x' OR 1=1 --%"; Num 7; Str "%x' OR 1=1 --%"; Num 7].
Proof.
  split.
  - exact (proj1 (especies_text_ignores_values
                    (Str "ipe") Undefined (Str "3") (Str "x' OR 1=1 --") Null (Num 7)
                    eq_refl eq_refl eq_refl)).
  - exact (proj2 (especies_text_ignores_values
                    (Str "x' OR 1=1 --") Null (Num 7) (Str "ipe") Undefined (Str "3")
                    eq_refl eq_refl eq_refl)).
Defined.

(** C5 as the specification words it fails for a parameter that is supplied
    and empty: [?search=] and [?search=x] both supply [search] and nothing
    else, and the builder, which tests truthiness, leaves the condition out
    for the first. *)
Lemma especies_text_ignores_values_counterexample :
  Str "" <> Undefined
  /\ Str "x" <> Undefined
  /\ fst (Especies.build (Str "") Undefined Undefined)
     <> fst (Especies.build (Str "x") Undefined Undefined)
  /\ snd (Especies.build (Str "") Undefined Undefined) = []
  /\ snd (Especies.build (Str "x") Undefined Undefined) = [Str "%x%"; Str "%x%"].
Proof.
  split; [discriminate|]. split; [discriminate|].
  split; [|split; reflexivity].
  intro H. apply (f_equal String.length) in H. vm_compute in H. discriminate H.
Qed.

(** All three inputs supplied: three conditions on the first branch, two on
    the second, numbered [$1] to [$5]; five parameters in that order. *)
Example especies_all_filters :
  Especies.where_tail (Especies.tombadas_conditions (Str "ipe") (Str "Fab") (Str "3"))
  = " AND (nome_popular ILIKE $1 OR nome_cientifico ILIKE $1) AND familia = $2 AND rpa = $3"
  /\ Especies.where_tail (Especies.censo_conditions (Str "ipe") (Str "Fab") (Str "3"))
     = " AND (nome_popular ILIKE $4 OR nome_cientifico ILIKE $4) AND rpa = $5"
  /\ snd (Especies.build (Str "ipe") (Str "Fab") (Str "3"))
     = [Str "%ipe%"; Str "Fab"; Str "3"; Str "%ipe%"; Str "3"].
Proof. repeat split. Qed.

Lemma messages_most_recent_witness :
  exists recent rest,
    fst (get_room_messages "7" (Obj [("limit", Str "2")]) (serving forum))
    = Ok {| status := 200; json := Arr (map Message.to_js recent) |}
    /\ Permutation (rest ++ recent)
         (filter (fun m => Message.room_id m =? 7) (messages forum))
    /\ List.length recent = 2%nat
    /\ StronglySorted
         (fun a b => Message.timestamp a <= Message.timestamp b) recent
    /\ (forall old new, In old rest -> In new recent ->
                        Message.timestamp old <= Message.timestamp new).
Proof.
  refine (messages_most_recent (pg := decimal_driver) (serving forum) "7"
            (Obj [("limit", Str "2")]) 7 2
            (serving_quiet forum) eq_refl _ (fun _ => eq_refl)).
  discriminate.
Defined.

(** Five messages in the room and a limit of two: the two newest, the older
    of them first. *)
Example messages_limit_two_of_five :
  fst (get_room_messages "7" (Obj [("limit", Str "2")]) (serving forum))
  = Ok {| status := 200;
          json := Arr [Message.to_js (posted 14 7 1 40);
                       Message.to_js (posted 15 7 1 50)] |}.
Proof. reflexivity. Qed.

(** No limit in the request: up to fifty, here all five, oldest first. *)
Example messages_default_limit :
  fst (get_room_messages "7" (Obj []) (serving forum))
  = Ok {| status := 200;
          json := Arr (map Message.to_js
                         [posted 11 7 1 10; posted 12 7 1 20; posted 13 7 1 30;
                          posted 14 7 1 40; posted 15 7 1 50]) |}.
Proof. reflexivity. Qed.

Lemma join_idempotent_witness :
  let first := post_room_join "7" bia_joins (serving forum) in
  let second := post_room_join "7" bia_joins (snd first) in
  (fst first = joined
   /\ visible (snd first) = add forum (membership 7 2)
   /\ committed (snd first) = add forum (membership 7 2))
  /\ fst second = already
  /\ visible (snd second) = visible (snd first)
  /\ committed (snd second) = committed (snd first).
Proof.
  intros first second.
  destruct (join_idempotent (pg := decimal_driver) (serving forum) "7" bia_joins 7 2
              (serving_quiet forum) eq_refl eq_refl eq_refl)
    as (_ & Hout & Hsecond).
  split; [|exact Hsecond].
  destruct Hout as (Hanswer & Hsees & Hcommitted).
  - intros [H | []]. discriminate.
  - split; [exact Hanswer|]. split; [exact Hsees | exact (Hcommitted eq_refl)].
Defined.

Lemma send_requires_membership_witness :
  (fst (post_room_messages "7" bia_says (serving forum))
   = Ok {| status := 403; json := error "User is not a member of this room" |}
   /\ visible (snd (post_room_messages "7" bia_says (serving forum))) = forum
   /\ committed (snd (post_room_messages "7" bia_says (serving forum))) = forum)
  /\ exists row,
       fst (post_room_messages "7" bia_says
              (snd (post_room_join "7" bia_joins (serving forum))))
       = Ok {| status := 201; json := Message.to_js row |}
       /\ messages (visible (snd (post_room_messages "7" bia_says
                                    (snd (post_room_join "7" bia_joins (serving forum))))))
          = (messages forum ++ [row])%list
       /\ Message.room_id row = 7
       /\ Message.sender_id row = 2
       /\ Message.content row = Str "bom dia".
Proof.
  destruct (send_requires_membership (pg := decimal_driver) (serving forum) "7"
              bia_says bia_joins 7 2
              (serving_quiet forum) eq_refl eq_refl eq_refl eq_refl eq_refl)
    as [Hrefused Hsent].
  split; [apply Hrefused | exact Hsent].
  intros [H | []]. discriminate.
Defined.

(** A failure between the two inserts of a room creation: the room is rolled
    back with the rest. *)
Example post_rooms_rolled_back :
  let failing :=
    {| committed := forum; txn := None; next := 100;
       oracle := fun n => Nat.eqb n 3; trace := [] |} in
  let after := post_rooms (Obj [("name", Str "manga"); ("creator_id", Num 1)]) failing in
  committed (snd after) = forum
  /\ trace (snd after)
     = [Connect; Client BEGIN; Client insert_room; Client insert_room_member;
        Client ROLLBACK; Release]
  /\ exists answer, fst after = Ok answer /\ status answer = 500.
Proof.
  repeat split. eexists. split; reflexivity.
Qed.

(** ** The further properties at work *)

Lemma forum_usernames_kept : usernames_kept forum.
Proof.
  split.
  - repeat constructor. intros [].
  - repeat constructor. now exists "ana".
Qed.

Lemma register_keeps_usernames_witness :
  usernames_kept (committed (snd (post_auth_register bia_registers (serving forum)))).
Proof.
  apply (register_keeps_usernames (pg := decimal_driver) (js := ascii_engine)
           (serving forum) bia_registers).
  - reflexivity.
  - exact forum_usernames_kept.
Defined.

Lemma register_twice_witness :
  let first := post_auth_register bia_registers (serving forum) in
  let second := post_auth_register bia_registers_again (snd first) in
  fst first
  = Ok {| status := 201;
          json := Obj [("success", Bool true);
                       ("user", Obj [("id", Num 101); ("username", Str "bia")])] |}
  /\ users (committed (snd first)) = [ana; User.mk 101 "bia" "x"]
  /\ fst second
     = Ok {| status := 400; json := failure "Username já está em uso" |}
  /\ committed (snd second) = committed (snd first).
Proof.
  apply (register_twice (pg := decimal_driver) (js := ascii_engine) (serving forum)
           bia_registers bia_registers_again "Bia" "BIA").
  - apply serving_quiet.
  - reflexivity.
  - reflexivity.
  - discriminate.
  - reflexivity.
  - reflexivity.
  - reflexivity.
  - discriminate.
  - reflexivity.
  - reflexivity.
Defined.

Lemma register_then_login_witness :
  fst (post_auth_login bia_logs_in
         (snd (post_auth_register bia_registers (serving forum))))
  = Ok {| status := 200;
          json := Obj [("success", Bool true);
                       ("message", Str "Login bem-sucedido");
                       ("user", Obj [("id", Num 101); ("username", Str "bia")])] |}.
Proof.
  refine (proj1 (register_then_login (pg := decimal_driver) (js := ascii_engine)
                   (serving forum)
                   bia_registers bia_logs_in "Bia" "bIA" "x"
                   (serving_quiet forum) eq_refl eq_refl _ eq_refl _
                   eq_refl eq_refl _ eq_refl eq_refl) eq_refl);
    discriminate.
Defined.

Lemma username_not_a_string_witness :
  post_auth_login numbered_user (serving forum)
  = (Ok {| status := 500; json := failure "Erro interno ao processar login" |},
     serving forum)
  /\ fst (post_auth_register numbered_user (serving forum))
     = Ok {| status := 500; json := failure "Erro ao registrar usuário" |}
  /\ committed (snd (post_auth_register numbered_user (serving forum))) = forum
  /\ trace (snd (post_auth_register numbered_user (serving forum)))
     = [Connect; Client BEGIN; Client ROLLBACK; Release].
Proof.
  destruct (username_not_a_string (pg := decimal_driver) (js := ascii_engine)
              (serving forum) numbered_user)
    as [Hlogin Hregister].
  - reflexivity.
  - intros s. discriminate.
  - reflexivity.
  - split; [exact Hlogin | exact (Hregister (serving_quiet forum))].
Defined.

Lemma unanswered_only_without_store_witness :
  fst (post_rooms mangueiras (unreachable forum)) = Throw StoreError
  /\ committed (snd (post_rooms mangueiras (unreachable forum))) = forum
  /\ trace (snd (post_rooms mangueiras (unreachable forum))) = [Connect].
Proof.
  split; [reflexivity|].
  destruct (proj2 (unanswered_only_without_store (pg := decimal_driver)
                     (js := ascii_engine)
                     (unreachable forum) mangueiras StoreError) eq_refl)
    as [Hsame _].
  split; [exact Hsame | reflexivity].
Defined.


(** A coordinate the numeric column does not take: validation passes and the
    store refuses the row, so the answer is 500 and nothing is stored. *)
Example plant_with_unreadable_coordinate :
  let body := Obj [("nome_popular", Str "Ipe"); ("latitude", Str "sul");
                   ("longitude", Num (-35))] in
  planted body 100 = None
  /\ (exists answer,
        fst (post_plants body (serving forum)) = Ok answer /\ status answer = 500)
  /\ committed (snd (post_plants body (serving forum))) = forum.
Proof.
  split; [reflexivity|]. split; [|reflexivity].
  eexists. split; reflexivity.
Qed.

Lemma sent_message_listed_last_witness :
  exists row earlier,
    fst (post_room_messages "7" ana_says (serving forum))
    = Ok {| status := 201; json := row |}
    /\ fst (get_room_messages "7" (Obj [("limit", Str "2")])
              (snd (post_room_messages "7" ana_says (serving forum))))
       = Ok {| status := 200; json := Arr (earlier ++ [row]) |}.
Proof.
  apply (sent_message_listed_last (pg := decimal_driver) (serving forum) "7"
           ana_says (Obj [("limit", Str "2")]) 7 1 1).
  - apply serving_quiet.
  - reflexivity.
  - reflexivity.
  - reflexivity.
  - reflexivity.
  - left. reflexivity.
  - reflexivity.
  - intros m Hin _. cbn in Hin.
    repeat (destruct Hin as [<- | Hin]; [cbn; lia|]). destruct Hin.
Defined.

Lemma creator_can_post_witness :
  exists room row,
    fst (post_rooms mangueiras (serving forum))
    = Ok {| status := 201; json := Room.to_js room |}
    /\ Room.creator_id room = 1
    /\ In (Room.id room, 1)
          (room_members (committed (snd (post_rooms mangueiras (serving forum)))))
    /\ fst (post_room_messages "100" ana_says
              (snd (post_rooms mangueiras (serving forum))))
       = Ok {| status := 201; json := Message.to_js row |}
    /\ Message.room_id row = Room.id room
    /\ Message.sender_id row = 1.
Proof.
  apply (creator_can_post (pg := decimal_driver) (serving forum) "100"
           mangueiras ana_says 1).
  - apply serving_quiet.
  - reflexivity.
  - reflexivity.
  - reflexivity.
  - reflexivity.
  - reflexivity.
  - reflexivity.
  - reflexivity.
  - reflexivity.
Defined.

Lemma two_rooms_senders_are_members : senders_are_members two_rooms.
Proof.
  intros m Hin. cbn in Hin.
  repeat (destruct Hin as [<- | Hin]; [cbn; tauto|]).
  destruct Hin.
Qed.

Lemma senders_stay_members_witness :
  senders_are_members
    (committed (snd (post_room_messages "7" bia_says (serving two_rooms))))
  /\ senders_are_members
       (committed (snd (post_room_join "7" bia_joins (serving two_rooms)))).
Proof.
  split.
  - exact (proj1 (senders_stay_members (pg := decimal_driver) (serving two_rooms) "7"
                    bia_says two_rooms_senders_are_members)).
  - exact (proj2 (senders_stay_members (pg := decimal_driver) (serving two_rooms) "7"
                    bia_joins two_rooms_senders_are_members)).
Defined.


Lemma post_rooms_atomic_witness :
  committed (snd (post_rooms mangueiras (serving forum))) = forum
  \/ exists room,
       fst (post_rooms mangueiras (serving forum))
       = Ok {| status := 201; json := Room.to_js room |}
       /\ committed (snd (post_rooms mangueiras (serving forum)))
          = add forum (room_with_creator room).
Proof.
  exact (post_rooms_atomic (pg := decimal_driver) (serving forum) mangueiras eq_refl).
Defined.

Lemma post_rooms_discipline_witness :
  exists events,
    trace (snd (post_rooms mangueiras (serving forum))) = events
    /\ disciplined events = true.
Proof.
  exact (post_rooms_discipline (pg := decimal_driver) (serving forum) mangueiras
           eq_refl eq_refl eq_refl).
Defined.

Lemma post_auth_register_discipline_witness :
  exists events,
    trace (snd (post_auth_register bia_registers (serving forum))) = events
    /\ disciplined events = true.
Proof.
  apply (post_auth_register_discipline (pg := decimal_driver) (js := ascii_engine)
           (serving forum) bia_registers).
  - reflexivity.
  - reflexivity.
  - reflexivity.
  - intros u Hu. injection Hu as <-. reflexivity.
Defined.

Lemma register_refusals_witness :
  exists u,
    field "username" ana_again = Str u
    /\ username_taken (lower u) (visible (serving forum)) = true.
Proof.
  exact (proj2 (register_refusals (pg := decimal_driver) (js := ascii_engine)
                  (serving forum) ana_again
                  {| status := 400; json := failure "Username já está em uso" |})
           eq_refl eq_refl eq_refl).
Defined.
